(** * Extravagant Pet Shop API: a shallow embedding of [main.py]

    The request handlers of [main.py] are embedded as functions over an
    explicit [World] (the process environment, the storage handle of
    [database.py], a schedule of storage faults and the backend's verdict
    on the search patterns that are not modelled).  Python dictionaries
    are finite maps or ordered association lists, [try]/[except] is an
    error monad, and the routes of the FastAPI application are one
    dispatcher, [app].

    Text is [string]; one character of the string stands for one character
    of the Python [str].  The embedding is exact on ASCII text; the emoji
    prefixes of the diagnostic strings are kept as the bytes of the source
    literals. *)

From stdpp Require Import base strings gmap list pretty.
From Stdlib Require Import ZArith Ascii String HexadecimalString.

Open Scope list_scope.

Set Warnings "-register-all".

(** ** Text *)

Module Text.

Definition is_upper (c : ascii) : bool :=
  (65 <=? nat_of_ascii c)%nat && (nat_of_ascii c <=? 90)%nat.

(** [str.lower()] on one ASCII character. *)
Definition lower (c : ascii) : ascii :=
  if is_upper c then ascii_of_nat (nat_of_ascii c + 32) else c.

Definition eqb_caseless (a b : ascii) : bool :=
  Ascii.eqb (lower a) (lower b).

Fixpoint mem (c : ascii) (s : string) : bool :=
  match s with
  | EmptyString => false
  | String x s' => Ascii.eqb c x || mem c s'
  end.

(** [s.lower().startswith(p.lower())] *)
Fixpoint starts_with_caseless (p s : string) : bool :=
  match p, s with
  | EmptyString, _ => true
  | String _ _, EmptyString => false
  | String a p', String b s' => eqb_caseless a b && starts_with_caseless p' s'
  end.

(** [p.lower() in s.lower()]: the literal, case-insensitive containment
    the specification speaks of. *)
Fixpoint contains_caseless (p s : string) : bool :=
  starts_with_caseless p s ||
  match s with
  | EmptyString => false
  | String _ s' => contains_caseless p s'
  end.

(** [s[:n]] *)
Definition slice_to (n : nat) (s : string) : string := String.substring 0 n s.

Fixpoint repeat (c : ascii) (n : nat) : string :=
  match n with
  | O => EmptyString
  | S n' => String c (repeat c n')
  end.

(** [s.rjust(n, c)] *)
Definition rjust (n : nat) (c : ascii) (s : string) : string :=
  repeat c (n - String.length s) +:+ s.

Fixpoint rstrip (c : ascii) (s : string) : string :=
  match s with
  | EmptyString => EmptyString
  | String x s' =>
      match rstrip c s' with
      | EmptyString => if Ascii.eqb x c then EmptyString else String x EmptyString
      | r => String x r
      end
  end.

Definition drop (n : nat) (s : string) : string :=
  String.substring n (String.length s - n) s.

End Text.

(** ** Python values *)

(** A Python [float], carried by the decimal number its [repr] shows:
    [mantissa * 10 ^ exponent].  The handlers never compute with floats;
    they only store them, print them and compare them with zero. *)
Record float := Float10 { mantissa : Z; exponent : Z }.

Module Float.

Definition of_int (n : Z) : float := Float10 n 0.

Definition nonneg (x : float) : bool := (0 <=? mantissa x)%Z.

Definition fixed (ds : string) (decpt : Z) : string :=
  let n := Z.of_nat (String.length ds) in
  if (decpt <=? 0)%Z then
    "0." +:+ Text.repeat "0" (Z.to_nat (- decpt)) +:+ ds
  else if (n <=? decpt)%Z then
    ds +:+ Text.repeat "0" (Z.to_nat (decpt - n)) +:+ ".0"
  else
    Text.slice_to (Z.to_nat decpt) ds +:+ "." +:+ Text.drop (Z.to_nat decpt) ds.

Definition scientific (ds : string) (decpt : Z) : string :=
  let e := (decpt - 1)%Z in
  let frac := Text.drop 1 ds in
  Text.slice_to 1 ds
  +:+ (if String.eqb frac "" then "" else "." +:+ frac)
  +:+ "e" +:+ (if (e <? 0)%Z then "-" else "+")
  +:+ Text.rjust 2 "0" (pretty (Z.abs_N e)).

(** [repr(x)]: positional notation when the decimal point falls within
    [-4 < decpt <= 16], exponent notation otherwise. *)
Definition repr (x : float) : string :=
  let m := mantissa x in
  if (m =? 0)%Z then "0.0" else
  let all := pretty (Z.abs_N m) in
  let ds := Text.rstrip "0" all in
  let decpt := (Z.of_nat (String.length all) + exponent x)%Z in
  (if (m <? 0)%Z then "-" else "")
  +:+ (if (-4 <? decpt)%Z && (decpt <=? 16)%Z
       then fixed ds decpt else scientific ds decpt).

End Float.

#[global] Instance float_eq_dec : EqDecision float.
Proof. solve_decision. Defined.

(** The values a stored document holds under a key: the field types of a
    product, and the backend's identifier type. *)
Inductive Value :=
  | VNone
  | VBool (b : bool)
  | VFloat (x : float)
  | VStr (s : string)
  | VList (l : list string)
  | VObjectId (oid : N).

#[global] Instance Value_eq_dec : EqDecision Value.
Proof. solve_decision. Defined.

Module Py.

Definition hex2 (c : ascii) : string :=
  Text.rjust 2 "0"
    (HexadecimalString.NilZero.string_of_uint (N.to_hex_uint (N_of_ascii c))).

Definition dquote : ascii := ascii_of_nat 34.

Definition repr_char (quote c : ascii) : string :=
  let n := nat_of_ascii c in
  if Ascii.eqb c quote || Ascii.eqb c "\" then String "\" (String c "")
  else if (n =? 9)%nat then "\t"
  else if (n =? 10)%nat then "\n"
  else if (n =? 13)%nat then "\r"
  else if (n <? 32)%nat || (n =? 127)%nat then "\x" +:+ hex2 c
  else String c "".

Fixpoint repr_chars (quote : ascii) (s : string) : string :=
  match s with
  | EmptyString => EmptyString
  | String c s' => repr_char quote c +:+ repr_chars quote s'
  end.

(** [repr(s)] of a text: single quotes, unless the text holds a single
    quote and no double quote. *)
Definition repr_str (s : string) : string :=
  let quote : ascii :=
    if Text.mem "'" s && negb (Text.mem dquote s) then dquote else "'"%char in
  String quote (repr_chars quote s) +:+ String quote "".

Fixpoint join (sep : string) (l : list string) : string :=
  match l with
  | [] => ""
  | [x] => x
  | x :: l' => x +:+ sep +:+ join sep l'
  end.

(** [str(ObjectId)]: 24 hexadecimal digits. *)
Definition str_oid (oid : N) : string :=
  Text.rjust 24 "0" (HexadecimalString.NilZero.string_of_uint (N.to_hex_uint oid)).

(** [str(v)] *)
Definition str (v : Value) : string :=
  match v with
  | VNone => "None"
  | VBool true => "True"
  | VBool false => "False"
  | VFloat x => Float.repr x
  | VStr s => s
  | VList l => "[" +:+ join ", " (repr_str <$> l) +:+ "]"
  | VObjectId oid => str_oid oid
  end.

(** Truth value of an [Optional[str]]: [None] and [""] are false. *)
Definition truthy (o : option string) : option string :=
  match o with
  | Some "" => None
  | _ => o
  end.

End Py.

(** A stored document: a free-form mapping from keys to values. *)
Abbreviation Doc := (gmap string Value).

(** JSON-like Python data: request bodies and response contents.  A [dict]
    literal is an association list in insertion order; [JDoc] is a
    document handed to the serialiser as it is. *)
Inductive Json :=
  | JNull
  | JBool (b : bool)
  | JInt (n : Z)
  | JFloat (x : float)
  | JStr (s : string)
  | JList (l : list Json)
  | JDict (kv : list (string * Json))
  | JDoc (d : Doc).

(** [d[k] = v] on a [dict]: an existing key keeps its place. *)
Fixpoint dict_set (k : string) (v : Json) (kv : list (string * Json)) : list (string * Json) :=
  match kv with
  | [] => [(k, v)]
  | (k', v') :: rest =>
      if String.eqb k k' then (k, v) :: rest else (k', v') :: dict_set k v rest
  end.

(** ** Exceptions *)

(** A Python exception: a plain one, carried by its text, or the
    framework's [HTTPException], which the application layer turns into an
    error response. *)
Inductive Exception :=
  | Exc (msg : string)
  | HTTPException (status_code : nat) (detail : string).

(** [str(e)] *)
Definition str_e (e : Exception) : string :=
  match e with
  | Exc msg => msg
  | HTTPException status_code detail => pretty status_code +:+ ": " +:+ detail
  end.

(** ** The world a request runs in *)

(** The database object behind [database.db]. *)
Record Database := {
  db_name : option string;              (* [db.name], when the attribute exists *)
  db_collections : gmap string (list Doc);
  db_next_oid : N;                      (* the next identifier the backend assigns *)
}.

(** What the backend makes of a pattern and its options: it refuses them
    with an error, or finds a match in some texts and none in the others. *)
Abbreviation Engine := (string -> string -> Exception + (string -> bool)).

(** [faults] schedules the outcome of the coming storage round trips:
    [Some msg] makes the round trip raise an exception whose text is
    [msg]; [None], or no entry, lets it through.  [engine] is the
    backend's verdict on the patterns outside the modelled fragment. *)
Record World := {
  environ : gmap string string;         (* [os.environ] *)
  db_import : option string;            (* [Some msg]: [from database import db] raises *)
  db : option Database;                 (* [database.db]; [None] when never connected *)
  faults : list (option string);
  engine : Engine;
}.

Definition set_db (d : Database) (w : World) : World :=
  {| environ := environ w; db_import := db_import w; db := Some d; faults := faults w;
     engine := engine w |}.

Definition set_faults (fs : list (option string)) (w : World) : World :=
  {| environ := environ w; db_import := db_import w; db := db w; faults := fs;
     engine := engine w |}.

Definition next_fault (w : World) : option string := mjoin (head (faults w)).

(** The documents of a collection, in insertion order. *)
Definition collection (name : string) (d : Database) : list Doc :=
  default [] (db_collections d !! name).

Definition products (w : World) : list Doc :=
  from_option (collection "product") [] (db w).

(** A computation that reads and changes the world and either returns or
    raises. *)
Definition M (A : Type) : Type := World -> (Exception + A) * World.

Definition ret {A} (a : A) : M A := fun w => (inr a, w).

Definition raise {A} (e : Exception) : M A := fun w => (inl e, w).

Definition bind {A B} (m : M A) (k : A -> M B) : M B :=
  fun w =>
    match m w with
    | (inr a, w') => k a w'
    | (inl e, w') => (inl e, w')
    end.

Declare Scope py_scope.
Delimit Scope py_scope with py.
Notation "x <- m ;; k" := (bind m (fun x => k))
  (at level 100, m at next level, right associativity) : py_scope.
Notation "m ;;; k" := (bind m (fun _ => k))
  (at level 100, right associativity) : py_scope.

(** [try: body except Exception as e: handler(e)] *)
Definition try_except {A} (body : M A) (handler : Exception -> M A) : M A :=
  fun w =>
    match body w with
    | (inl e, w') => handler e w'
    | r => r
    end.

(** A result that is already an exception or a value. *)
Definition lift {A} (r : Exception + A) : M A :=
  match r with
  | inr a => ret a
  | inl e => raise e
  end.

(** The world after one storage round trip: its entry of the schedule is
    used up. *)
Definition tick (w : World) : World := set_faults (tail (faults w)) w.

(** One round trip to the storage backend. *)
Definition round_trip : M unit :=
  fun w =>
    match next_fault w with
    | Some msg => (inl (Exc msg), tick w)
    | None => (inr tt, tick w)
    end.

(** ** The backend's query language *)

(** The fragment of the backend's regular expressions that is modelled:
    literal characters, the wildcard [.] and a backslash before a
    character that is neither a letter nor a digit.  Every other pattern
    is outside the fragment ([compile] gives [None]) and left to the
    world's [engine]. *)
Module Regex.

Inductive atom :=
  | Lit (c : ascii)
  | Dot.

Definition metachars : string := "\^$.|?*+()[]{}".

Definition is_meta (c : ascii) : bool := Text.mem c metachars.

Definition is_alnum (c : ascii) : bool :=
  let n := nat_of_ascii c in
  ((48 <=? n) && (n <=? 57) || (65 <=? n) && (n <=? 90) || (97 <=? n) && (n <=? 122))%nat.

Definition escapable (c : ascii) : bool :=
  (nat_of_ascii c <? 128)%nat && negb (is_alnum c).

Fixpoint compile (p : string) : option (list atom) :=
  match p with
  | EmptyString => Some []
  | String c p' =>
      if Ascii.eqb c "\" then
        match p' with
        | String d p'' =>
            if escapable d then cons (Lit d) <$> compile p'' else None
        | EmptyString => None
        end
      else if Ascii.eqb c "." then cons Dot <$> compile p'
      else if is_meta c then None
      else cons (Lit c) <$> compile p'
  end.

Definition atom_matches (caseless : bool) (a : atom) (c : ascii) : bool :=
  match a with
  | Lit x => if caseless then Text.eqb_caseless x c else Ascii.eqb x c
  | Dot => negb (Ascii.eqb c (ascii_of_nat 10))
  end.

Fixpoint matches_here (caseless : bool) (r : list atom) (s : string) : bool :=
  match r, s with
  | [], _ => true
  | _ :: _, EmptyString => false
  | a :: r', String c s' => atom_matches caseless a c && matches_here caseless r' s'
  end.

(** An unanchored search: the pattern matches somewhere in [s]. *)
Fixpoint search (caseless : bool) (r : list atom) (s : string) : bool :=
  matches_here caseless r s ||
  match s with
  | EmptyString => false
  | String _ s' => search caseless r s'
  end.

(** The pattern that reads the text [p] character by character. *)
Fixpoint lits (p : string) : list atom :=
  match p with
  | EmptyString => []
  | String c p' => Lit c :: lits p'
  end.

(** A pattern without any metacharacter. *)
Fixpoint literal (p : string) : bool :=
  match p with
  | EmptyString => true
  | String c p' => negb (is_meta c) && literal p'
  end.

(** The [$options] strings that are modelled. *)
Definition caseless_of (options : string) : option bool :=
  if String.eqb options "i" then Some true
  else if String.eqb options "" then Some false
  else None.

End Regex.

(** What a filter dictionary says about one key. *)
Inductive Cond :=
  | Equals (s : string)                       (* [{key: s}] *)
  | Regex (pattern options : string).           (* [{key: {"$regex": .., "$options": ..}}] *)

(** One entry of a filter dictionary; the alternatives of ["$or"] are the
    one-key dictionaries the source writes. *)
Inductive Clause :=
  | Field (key : string) (c : Cond)
  | Or (alts : list (string * Cond)).

Abbreviation Filter := (list Clause).

(** The texts a pattern finds a match in: by the modelled semantics inside
    the fragment, by the backend's engine outside. *)
Definition regex_pred (eng : Engine) (pattern options : string)
    : Exception + (string -> bool) :=
  match Regex.compile pattern, Regex.caseless_of options with
  | Some r, Some caseless => inr (Regex.search caseless r)
  | _, _ => eng pattern options
  end.

Definition cond_pred (eng : Engine) (c : Cond) : Exception + (option Value -> bool) :=
  match c with
  | Equals s => inr (fun v => bool_decide (v = Some (VStr s)))
  | Regex pattern options =>
      match regex_pred eng pattern options with
      | inr found =>
          inr (fun v =>
                 match v with
                 | Some (VStr s) => found s
                 | Some (VList l) => existsb found l
                 | _ => false
                 end)
      | inl e => inl e
      end
  end.

Definition field_pred (eng : Engine) (kc : string * Cond) : Exception + (Doc -> bool) :=
  match cond_pred eng kc.2 with
  | inr f => inr (fun d : Doc => f (d !! kc.1))
  | inl e => inl e
  end.

Fixpoint any_pred (eng : Engine) (alts : list (string * Cond)) : Exception + (Doc -> bool) :=
  match alts with
  | [] => inr (fun _ => false)
  | kc :: alts' =>
      match field_pred eng kc, any_pred eng alts' with
      | inr f, inr g => inr (fun d => f d || g d)
      | inl e, _ => inl e
      | _, inl e => inl e
      end
  end.

Definition clause_pred (eng : Engine) (c : Clause) : Exception + (Doc -> bool) :=
  match c with
  | Field key c => field_pred eng (key, c)
  | Or alts => any_pred eng alts
  end.

(** The entries of a filter dictionary hold together. *)
Fixpoint filter_pred (eng : Engine) (f : Filter) : Exception + (Doc -> bool) :=
  match f with
  | [] => inr (fun _ => true)
  | c :: f' =>
      match clause_pred eng c, filter_pred eng f' with
      | inr p, inr q => inr (fun d => p d && q d)
      | inl e, _ => inl e
      | _, inl e => inl e
      end
  end.

(** ** [schemas.py] and the request model *)

(** The request model [ProductCreate] of [main.py], which is also the
    shape of the keyword arguments the [Product] constructor receives: the dictionary
    [payload.model_dump()] and the seed dictionaries have these ten keys. *)
Module ProductCreate.
Record t := {
  title : string;
  price : float;
  category : string;
  description : option string;
  image_url : option string;
  animal : option string;
  colors : option (list string);
  rating : option float;
  tags : option (list string);
  in_stock : bool;
}.
End ProductCreate.

(** Modelled from the spec: the canonical [Product] shape of [schemas.py],
    which is not among the sources.  Section 3 of the specification gives
    its fields: a non-empty title, a non-negative price, a category, three
    optional texts, two sequences of labels, a rating and a flag. *)
Module Product.
Record t := {
  title : string;
  price : float;
  category : string;
  description : option string;
  image_url : option string;
  animal : option string;
  colors : list string;
  rating : float;
  tags : list string;
  in_stock : bool;
}.

Definition opt_text (o : option string) : Value :=
  match o with
  | Some s => VStr s
  | None => VNone
  end.

(** [record.model_dump()] as a document. *)
Definition model_dump (p : t) : Doc :=
  <["title" := VStr (title p)]>
  (<["price" := VFloat (price p)]>
  (<["category" := VStr (category p)]>
  (<["description" := opt_text (description p)]>
  (<["image_url" := opt_text (image_url p)]>
  (<["animal" := opt_text (animal p)]>
  (<["colors" := VList (colors p)]>
  (<["rating" := VFloat (rating p)]>
  (<["tags" := VList (tags p)]>
  (<["in_stock" := VBool (in_stock p)]> ∅))))))))).

Definition validation_error (field : string) : Exception :=
  Exc ("1 validation error for Product: " +:+ field).

End Product.

(** Modelled from the spec: the [Product] constructor applied to keyword
    arguments, the second validation pass.  It raises on a value that does not fit the canonical shape: an
    empty title, a negative price, or [None] where a sequence or a rating
    is expected.  The text of the error names the field; the
    specification does not fix it. *)
Definition Product_init (kw : ProductCreate.t) : M Product.t :=
  if String.eqb (ProductCreate.title kw) "" then raise (Product.validation_error "title")
  else if negb (Float.nonneg (ProductCreate.price kw)) then raise (Product.validation_error "price")
  else
    match ProductCreate.colors kw, ProductCreate.rating kw, ProductCreate.tags kw with
    | None, _, _ => raise (Product.validation_error "colors")
    | _, None, _ => raise (Product.validation_error "rating")
    | _, _, None => raise (Product.validation_error "tags")
    | Some colors, Some rating, Some tags =>
        ret {| Product.title := ProductCreate.title kw;
               Product.price := ProductCreate.price kw;
               Product.category := ProductCreate.category kw;
               Product.description := ProductCreate.description kw;
               Product.image_url := ProductCreate.image_url kw;
               Product.animal := ProductCreate.animal kw;
               Product.colors := colors;
               Product.rating := rating;
               Product.tags := tags;
               Product.in_stock := ProductCreate.in_stock kw |}
    end.

(** *** Decoding a request body as [ProductCreate]

    The body is a JSON object.  A field is read when its JSON value has
    the declared type (a number of either kind for [float]); the
    validation library's further coercions are outside the model. *)
Module Body.

Definition as_str (j : Json) : option string :=
  match j with JStr s => Some s | _ => None end.

Definition as_float (j : Json) : option float :=
  match j with
  | JFloat x => Some x
  | JInt n => Some (Float.of_int n)
  | _ => None
  end.

Definition as_bool (j : Json) : option bool :=
  match j with JBool b => Some b | _ => None end.

Fixpoint all_str (l : list Json) : option (list string) :=
  match l with
  | [] => Some []
  | j :: l' =>
      match as_str j, all_str l' with
      | Some s, Some ss => Some (s :: ss)
      | _, _ => None
      end
  end.

Definition as_str_list (j : Json) : option (list string) :=
  match j with JList l => all_str l | _ => None end.

(** A field declared [Optional[T] = dflt]. *)
Definition optional {T} (read : Json -> option T) (dflt : option T)
    (o : option Json) : option (option T) :=
  match o with
  | None => Some dflt
  | Some JNull => Some None
  | Some j => Some <$> read j
  end.

(** A field declared [T = dflt]. *)
Definition defaulted {T} (read : Json -> option T) (dflt : T)
    (o : option Json) : option T :=
  match o with
  | None => Some dflt
  | Some j => read j
  end.

Definition required_fields : list string := ["title"; "price"; "category"].

Definition missing (body : gmap string Json) : list string :=
  List.filter (fun k => bool_decide (body !! k = None)) required_fields.

(** [inl fields]: the required fields the body lacks. *)
Definition decode (body : gmap string Json) : option (list string + ProductCreate.t) :=
  match missing body with
  | (_ :: _) as fields => Some (inl fields)
  | [] =>
      title ← body !! "title" ≫= as_str;
      price ← body !! "price" ≫= as_float;
      category ← body !! "category" ≫= as_str;
      description ← optional as_str None (body !! "description");
      image_url ← optional as_str None (body !! "image_url");
      animal ← optional as_str None (body !! "animal");
      colors ← optional as_str_list (Some []) (body !! "colors");
      rating ← optional as_float (Some (Float10 45 (-1))) (body !! "rating");
      tags ← optional as_str_list (Some []) (body !! "tags");
      in_stock ← defaulted as_bool true (body !! "in_stock");
      Some (inr {| ProductCreate.title := title;
                   ProductCreate.price := price;
                   ProductCreate.category := category;
                   ProductCreate.description := description;
                   ProductCreate.image_url := image_url;
                   ProductCreate.animal := animal;
                   ProductCreate.colors := colors;
                   ProductCreate.rating := rating;
                   ProductCreate.tags := tags;
                   ProductCreate.in_stock := in_stock |})
  end.

End Body.

(** ** [database.py] *)

(** Modelled from the spec: the text of the exception the gateway raises
    when the storage handle was never set.  The specification does not
    fix it. *)
Definition unavailable : Exception := Exc "Database not available".

(** Modelled from the spec: [get_documents(collection_name, filter_dict,
    limit)] of [database.py], which is not among the sources: one round
    trip that returns the matching records of the collection in the
    backend's order, truncated to [limit], or raises when the backend
    refuses a pattern.  An equality entry holds when the document's field
    equals the value; a pattern entry holds when the field is a text the
    pattern matches, or a sequence of texts one of which it matches. *)
Definition get_documents (collection_name : string) (filter_dict : Filter)
    (limit : nat) : M (list Doc) :=
  fun w =>
    match db w with
    | None => raise unavailable w
    | Some d =>
        (round_trip ;;;
         matching <- lift (filter_pred (engine w) filter_dict) ;;
         ret (take limit (List.filter matching (collection collection_name d))))%py w
    end.

Definition insert_one (collection_name : string) (doc : Doc) (d : Database) : Database :=
  {| db_name := db_name d;
     db_collections :=
       <[collection_name := collection collection_name d ++ [doc]]> (db_collections d);
     db_next_oid := N.succ (db_next_oid d) |}.

(** Modelled from the spec: [create_document(collection_name, record)] of
    [database.py]: one round trip that inserts the record's fields under an
    identifier the backend assigns, and returns that identifier as text. *)
Definition create_document (collection_name : string) (record : Product.t) : M string :=
  fun w =>
    match db w with
    | None => raise unavailable w
    | Some d =>
        (round_trip ;;;
         fun w' =>
           let oid := db_next_oid d in
           let doc := <["_id" := VObjectId oid]> (Product.model_dump record) in
           ret (Py.str_oid oid) (set_db (insert_one collection_name doc d) w'))%py w
    end.

(** [db.list_collection_names()], a call of the backend's driver. *)
Definition list_collection_names (d : Database) : M (list string) :=
  (round_trip ;;; ret ((map_to_list (db_collections d)).*1))%py.

(** [from database import db] *)
Definition import_db : M (option Database) :=
  fun w =>
    match db_import w with
    | Some msg => raise (Exc msg) w
    | None => ret (db w) w
    end.

(** [os.getenv(name)] *)
Definition getenv (name : string) : M (option string) :=
  fun w => ret (environ w !! name) w.

(** ** [main.py]: the handlers *)

Definition read_root : M Json :=
  ret (JDict [("message", JStr "Extravagant Pet Shop Backend is live!")]).

(** Every exception of the inner [try] is caught there, so the outer
    handler only sees a failing import, which happens before the first
    assignment to [response]: the handler updates the initial
    dictionary. *)
Definition test_database : M Json :=
  let response :=
    [("backend", JStr "✅ Running");
     ("database", JStr "❌ Not Available");
     ("database_url", JNull);
     ("database_name", JNull);
     ("connection_status", JStr "Not Connected");
     ("collections", JList [])] in
  (response <-
     try_except
       (db <- import_db ;;
        match db with
        | Some db =>
            let response := dict_set "database" (JStr "✅ Available") response in
            url <- getenv "DATABASE_URL" ;;
            let response :=
              dict_set "database_url"
                (JStr (match Py.truthy url with
                       | Some _ => "✅ Set"
                       | None => "❌ Not Set"
                       end)) response in
            let response :=
              dict_set "database_name"
                (JStr (default "✅ Connected" (db_name db))) response in
            let response := dict_set "connection_status" (JStr "Connected") response in
            try_except
              (collections <- list_collection_names db ;;
               let response :=
                 dict_set "collections" (JList (JStr <$> take 10 collections)) response in
               ret (dict_set "database" (JStr "✅ Connected & Working") response))
              (fun e =>
                 ret (dict_set "database"
                        (JStr ("⚠️ Connected but Error: " +:+ Text.slice_to 80 (str_e e)))
                        response))
        | None =>
            ret (dict_set "database" (JStr "⚠️ Available but not initialized") response)
        end)
       (fun e =>
          ret (dict_set "database"
                 (JStr ("❌ Error: " +:+ Text.slice_to 80 (str_e e))) response)) ;;
   ret (JDict response))%py.

(** [it["_id"] = str(it.get("_id"))] *)
Definition stringify_id (it : Doc) : Doc :=
  <["_id" := VStr (Py.str (default VNone (it !! "_id")))]> it.

Definition search_clause (q : string) : Clause :=
  Or [("title", Regex q "i"); ("description", Regex q "i"); ("tags", Regex q "i")].

(** The dictionary [filter_dict] the handler builds. *)
Definition build_filter (animal q : option string) : Filter :=
  let filter_dict := [] in
  let filter_dict :=
    match Py.truthy animal with
    | Some animal => filter_dict ++ [Field "animal" (Equals animal)]
    | None => filter_dict
    end in
  match Py.truthy q with
  | Some q => filter_dict ++ [search_clause q]
  | None => filter_dict
  end.

Definition items_body (items : list Doc) : Json :=
  JDict [("items", JList (JDoc <$> items))].

Definition list_products (animal q : option string) : M Json :=
  let filter_dict := build_filter animal q in
  try_except
    (items <- get_documents "product" filter_dict 100 ;;
     let items := stringify_id <$> items in
     ret (items_body items))%py
    (fun e => raise (HTTPException 500 (str_e e))).

Definition create_product (payload : ProductCreate.t) : M Json :=
  try_except
    (prod <- Product_init payload ;;
     new_id <- create_document "product" prod ;;
     ret (JDict [("id", JStr new_id)]))%py
    (fun e => raise (HTTPException 400 (str_e e))).

Definition demo (title : string) (price : float) (category description image_url
    animal : string) (colors : list string) (rating : float) (tags : list string)
    : ProductCreate.t :=
  {| ProductCreate.title := title;
     ProductCreate.price := price;
     ProductCreate.category := category;
     ProductCreate.description := Some description;
     ProductCreate.image_url := Some image_url;
     ProductCreate.animal := Some animal;
     ProductCreate.colors := Some colors;
     ProductCreate.rating := Some rating;
     ProductCreate.tags := Some tags;
     ProductCreate.in_stock := true |}.

Definition demo_products : list ProductCreate.t :=
  [ demo "Neon Glow Collar" (Float10 2999 (-2)) "Accessories"
      "Rechargeable LED collar with rave-mode for night walks."
      "https://images.unsplash.com/photo-1543466835-00a7907e9de1?q=80&w=1200&auto=format&fit=crop"
      "dogs" ["neon-pink"; "electric-blue"; "lime"] (Float10 47 (-1))
      ["neon"; "glow"; "night"];
    demo "Catnip Disco Ball" (Float10 185 (-1)) "Toys"
      "Sparkly orb that scatters rainbow reflections across the room."
      "https://images.unsplash.com/photo-1543852786-1cf6624b9987?q=80&w=1200&auto=format&fit=crop"
      "cats" ["holographic"; "silver"] (Float10 46 (-1))
      ["disco"; "sparkle"];
    demo "Tropical Reef Palace" (Float10 89 0) "Aquarium"
      "A vibrant coral-themed habitat with neon accents."
      "https://images.unsplash.com/photo-1518837695005-2083093ee35b?q=80&w=1200&auto=format&fit=crop"
      "fish" ["coral"; "aqua"; "purple"] (Float10 48 (-1))
      ["reef"; "aquatic"; "premium"];
    demo "Feather Carnival Wand" (Float10 1299 (-2)) "Toys"
      "Rainbow plume teaser for cats with bells and glitter ribbon."
      "https://images.unsplash.com/photo-1592194996308-7b43878e84a6?q=80&w=1200&auto=format&fit=crop"
      "cats" ["rainbow"; "gold"] (Float10 44 (-1))
      ["play"; "rainbow"];
    demo "Birdie Neon Gym" (Float10 54 0) "Cages"
      "Modular perch system with colorful beads and swings."
      "https://images.unsplash.com/photo-1535850836387-0f9dfce30846?q=80&w=1200&auto=format&fit=crop"
      "birds" ["neon-orange"; "teal"] (Float10 45 (-1))
      ["gym"; "beads"] ].

(** The loop [for d in demo_products], threading the counter. *)
Fixpoint seed_loop (ds : list ProductCreate.t) (inserted : Z) : M Z :=
  match ds with
  | [] => ret inserted
  | d :: ds' =>
      (prod <- Product_init d ;;
       create_document "product" prod ;;;
       seed_loop ds' (inserted + 1)%Z)%py
  end.

Definition seed_products : M Json :=
  try_except
    (existing <- get_documents "product" [] 1 ;;
     match existing with
     | _ :: _ =>
         ret (JDict [("status", JStr "skipped"); ("message", JStr "Products already exist")])
     | [] =>
         inserted <- seed_loop demo_products 0 ;;
         ret (JDict [("status", JStr "ok"); ("inserted", JInt inserted)])
     end)%py
    (fun e => raise (HTTPException 500 (str_e e))).

(** ** The application *)

Inductive Request :=
  | GET_root                                          (* GET / *)
  | GET_test                                          (* GET /test *)
  | GET_api_products (animal q : option string)       (* GET /api/products *)
  | POST_api_products (body : gmap string Json)       (* POST /api/products *)
  | POST_api_seed.                                    (* POST /api/seed *)

Record Response := { status : nat; content : Json }.

(** What the framework sends for a handler's outcome: the route's status
    code with the returned value, the status and detail of an
    [HTTPException], or 500 for any other exception. *)
Definition respond (success : nat) (handler : M Json) (w : World) : Response * World :=
  match handler w with
  | (inr body, w') => ({| status := success; content := body |}, w')
  | (inl (HTTPException status_code detail), w') =>
      ({| status := status_code; content := JDict [("detail", JStr detail)] |}, w')
  | (inl (Exc _), w') =>
      ({| status := 500; content := JStr "Internal Server Error" |}, w')
  end.

(** The framework's answer to a body that does not validate against the
    handler's parameter type: status 422 and the list of errors, of which
    the entries of the missing fields are modelled (without the echo of
    the input). *)
Definition unprocessable (fields : list string) : Response :=
  {| status := 422;
     content :=
       JDict [("detail",
               JList ((fun k => JDict [("type", JStr "missing");
                                       ("loc", JList [JStr "body"; JStr k]);
                                       ("msg", JStr "Field required")]) <$> fields))] |}.

(** The routes.  [None] only for a creation body that needs one of the
    validation library's coercions, which are outside the model: nothing
    is stated there. *)
Definition app (r : Request) (w : World) : option (Response * World) :=
  match r with
  | GET_root => Some (respond 200 read_root w)
  | GET_test => Some (respond 200 test_database w)
  | GET_api_products animal q => Some (respond 200 (list_products animal q) w)
  | POST_api_products body =>
      match Body.decode body with
      | Some (inr payload) => Some (respond 201 (create_product payload) w)
      | Some (inl fields) => Some (unprocessable fields, w)
      | None => None
      end
  | POST_api_seed => Some (respond 200 seed_products w)
  end.

(** ** The selection in the specification's words *)

Module Spec.

(** A field case-insensitively contains the text [q]: a text field as a
    substring, a sequence of labels in one of its labels. *)
Definition contains (q : string) (v : option Value) : bool :=
  match v with
  | Some (VStr s) => Text.contains_caseless q s
  | Some (VList l) => existsb (Text.contains_caseless q) l
  | _ => false
  end.

Definition animal_is (animal : option string) (d : Doc) : bool :=
  match Py.truthy animal with
  | Some a => bool_decide (d !! "animal" = Some (VStr a))
  | None => true
  end.

(** [title], [description] or [tags] contains [q], and the [animal] field
    equals the parameter when one is given. *)
Definition selects (animal : option string) (q : string) (d : Doc) : bool :=
  animal_is animal d &&
  (contains q (d !! "title") || contains q (d !! "description") || contains q (d !! "tags")).

End Spec.

(** ** Predicates and sample worlds of the statements *)

Definition title_of (doc : Doc) : option Value := doc !! "title".

(** Keyword arguments the canonical shape accepts. *)
Definition valid (kw : ProductCreate.t) : Prop :=
  ProductCreate.title kw <> "" /\
  Float.nonneg (ProductCreate.price kw) = true /\
  is_Some (ProductCreate.colors kw) /\
  is_Some (ProductCreate.rating kw) /\
  is_Some (ProductCreate.tags kw).

(** No fault is scheduled. *)
Definition healthy (w : World) : Prop := Forall (eq None) (faults w).

(** An engine that refuses every pattern it is asked about. *)
Definition refusing : Engine := fun _ _ => inl (Exc "Regular expression is invalid").

Definition database_of (docs : list Doc) : Database :=
  {| db_name := Some "petshop";
     db_collections := {[ "product" := docs ]};
     db_next_oid := N.of_nat (List.length docs) |}.

(** A connected backend that holds [docs] as its products, with no fault
    scheduled. *)
Definition world_of (docs : list Doc) : World :=
  {| environ := ∅; db_import := None; db := Some (database_of docs); faults := [];
     engine := refusing |}.

(** The same backend when its next round trip fails with [msg]. *)
Definition flaky (docs : list Doc) (msg : string) : World :=
  set_faults [Some msg] (world_of docs).

Definition neon (i : nat) : Doc :=
  {[ "_id" := VObjectId (N.of_nat i); "title" := VStr "neon" ]}.

Definition neon_sign : Doc := {[ "_id" := VObjectId 100; "title" := VStr "Neon sign" ]}.

(** 101 products whose titles all contain "neon". *)
Definition crowd : list Doc := (neon <$> seq 0 100) ++ [neon_sign].

Definition glow_collar : Doc :=
  {[ "_id" := VObjectId 1; "title" := VStr "Neon Glow Collar"; "animal" := VStr "dogs";
     "tags" := VList ["neon"; "glow"; "night"] ]}.

Definition disco_ball : Doc :=
  {[ "_id" := VObjectId 2; "title" := VStr "Catnip Disco Ball"; "animal" := VStr "cats";
     "tags" := VList ["disco"; "sparkle"] ]}.

Definition shelf : World := world_of [glow_collar; disco_ball].

(** A document that carries no identifier. *)
Definition stray : Doc := {[ "title" := VStr "Stray" ]}.


Definition laser_mouse : gmap string Json :=
  {[ "title" := JStr "Laser Mouse"; "price" := JFloat (Float10 995 (-2));
     "category" := JStr "Toys" ]}.

(** ** Further definitions of the statements *)

(** The report of [test_database], by its six entries. *)
Definition report (database : string) (database_url database_name : Json)
    (connection_status : string) (collections : list string) : Json :=
  JDict [("backend", JStr "✅ Running");
         ("database", JStr database);
         ("database_url", database_url);
         ("database_name", database_name);
         ("connection_status", JStr connection_status);
         ("collections", JList (JStr <$> collections))].

(** A world whose storage handle was never set. *)
Definition offline : World :=
  {| environ := ∅; db_import := None; db := None; faults := []; engine := refusing |}.


(** The keys the filter of a listing reads. *)
Definition searched_keys : list string := ["animal"; "title"; "description"; "tags"].

Definition animal_equals (animal : string) (d : Doc) : bool :=
  bool_decide (d !! "animal" = Some (VStr animal)).

(** The document [create_document] stores for a record. *)
Definition stored_doc (d : Database) (prod : Product.t) : Doc :=
  <["_id" := VObjectId (db_next_oid d)]> (Product.model_dump prod).


(** A connected backend with the given products and fault schedule. *)
Definition world_with (docs : list Doc) (fs : list (option string)) : World :=
  set_faults fs (world_of docs).

Definition demo_titles : list (option Value) :=
  (fun kw => Some (VStr (ProductCreate.title kw))) <$> demo_products.

Definition skipped : Response :=
  {| status := 200;
     content := JDict [("status", JStr "skipped");
                       ("message", JStr "Products already exist")] |}.


(** The payload and the record of the body [laser_mouse]. *)
Definition laser_mouse_payload (title : string) : ProductCreate.t :=
  {| ProductCreate.title := title;
     ProductCreate.price := Float10 995 (-2);
     ProductCreate.category := "Toys";
     ProductCreate.description := None;
     ProductCreate.image_url := None;
     ProductCreate.animal := None;
     ProductCreate.colors := Some [];
     ProductCreate.rating := Some (Float10 45 (-1));
     ProductCreate.tags := Some [];
     ProductCreate.in_stock := true |}.

Definition laser_mouse_product : Product.t :=
  {| Product.title := "Laser Mouse";
     Product.price := Float10 995 (-2);
     Product.category := "Toys";
     Product.description := None;
     Product.image_url := None;
     Product.animal := None;
     Product.colors := [];
     Product.rating := Float10 45 (-1);
     Product.tags := [];
     Product.in_stock := true |}.

(** A product that differs from [disco_ball] in its identifier and in a
    key the filter does not read. *)
Definition disco_twin : Doc :=
  {[ "_id" := VObjectId 7; "title" := VStr "Catnip Disco Ball"; "animal" := VStr "cats";
     "tags" := VList ["disco"; "sparkle"]; "category" := VStr "Toys" ]}.

(** * Properties *)

(** ** Python's renderings on sample values *)

Example repr_29_99 : Float.repr (Float10 2999 (-2)) = "29.99".
Proof. reflexivity. Qed.

Example repr_89 : Float.repr (Float10 89 0) = "89.0".
Proof. reflexivity. Qed.

Example repr_1e16 : Float.repr (Float10 1 16) = "1e+16".
Proof. reflexivity. Qed.

Example repr_1e15 : Float.repr (Float10 10 14) = "1000000000000000.0".
Proof. reflexivity. Qed.

Example repr_1e_05 : Float.repr (Float10 1 (-5)) = "1e-05".
Proof. reflexivity. Qed.

Example repr_negative : Float.repr (Float10 (-1) (-4)) = "-0.0001".
Proof. reflexivity. Qed.

Example str_tags : Py.str (VList ["neon"; "glow"]) = "['neon', 'glow']".
Proof. reflexivity. Qed.

Example str_tags_quote :
  Py.str (VList ["it's"]) = "[" +:+ String Py.dquote "it's" +:+ String Py.dquote "]".
Proof. reflexivity. Qed.

Example str_oid_255 : Py.str (VObjectId 255) = "0000000000000000000000ff".
Proof. reflexivity. Qed.

(** ** Patterns without metacharacters *)

Lemma backslash_is_meta : Regex.is_meta "\" = true.
Proof. reflexivity. Qed.

Lemma dot_is_meta : Regex.is_meta "." = true.
Proof. reflexivity. Qed.

Lemma compile_literal (p : string) :
  Regex.literal p = true -> Regex.compile p = Some (Regex.lits p).
Proof.
  induction p as [|c p IH]; simpl; [done|].
  intros [Hc Hp]%andb_prop. apply negb_true_iff in Hc.
  destruct (Ascii.eqb_spec c "\") as [->|_]; [by rewrite backslash_is_meta in Hc|].
  destruct (Ascii.eqb_spec c ".") as [->|_]; [by rewrite dot_is_meta in Hc|].
  by rewrite Hc, (IH Hp).
Qed.

Lemma matches_here_lits (p s : string) :
  Regex.matches_here true (Regex.lits p) s = Text.starts_with_caseless p s.
Proof.
  revert s. induction p as [|c p IH]; intros [|x s]; simpl; try done.
  by rewrite IH.
Qed.

(** Searching for a literal pattern is the containment test. *)
Lemma search_lits (p s : string) :
  Regex.search true (Regex.lits p) s = Text.contains_caseless p s.
Proof.
  induction s as [|x s IH]; simpl; rewrite matches_here_lits; [done|].
  by rewrite IH.
Qed.

Lemma existsb_pointwise {A} (f g : A -> bool) (l : list A) :
  (forall a, f a = g a) -> existsb f l = existsb g l.
Proof. intros E. induction l as [|a l IH]; simpl; [done|]. by rewrite E, IH. Qed.

Lemma cond_pred_literal (q : string) :
  Regex.literal q = true ->
  exists f, (forall eng, cond_pred eng (Regex q "i") = inr f) /\
            forall v, f v = Spec.contains q v.
Proof.
  intros Hq. unfold cond_pred, regex_pred. rewrite (compile_literal q Hq). simpl.
  eexists. split; [reflexivity|].
  intros [[| | |s|l|]|]; simpl; try done.
  - apply search_lits.
  - apply existsb_pointwise. intros a. apply search_lits.
Qed.

(** The wildcard is not read literally: the pattern "a.c" finds "abc",
    which does not contain it. *)
Example dot_matches_any_character :
  match cond_pred refusing (Regex "a.c" "i") with
  | inr found => found (Some (VStr "abc")) = true
  | inl _ => False
  end /\
  Spec.contains "a.c" (Some (VStr "abc")) = false.
Proof. split; reflexivity. Qed.

(** ** The filter dictionary *)

Lemma truthy_nonempty (s : string) : s <> "" -> Py.truthy (Some s) = Some s.
Proof. by destruct s. Qed.

Lemma contains_field eng (q : string) (f : option Value -> bool) (k : string) :
  cond_pred eng (Regex q "i") = inr f ->
  field_pred eng (k, Regex q "i") = inr (fun d : Doc => f (d !! k)).
Proof. unfold field_pred. simpl fst. simpl snd. by intros ->. Qed.

(** For a pattern without metacharacters the search entry of the filter
    is the containment test of the specification. *)
Lemma search_clause_literal (q : string) :
  Regex.literal q = true ->
  exists p, (forall eng, clause_pred eng (search_clause q) = inr p) /\
    forall d : Doc,
      p d = Spec.contains q (d !! "title") || Spec.contains q (d !! "description")
            || Spec.contains q (d !! "tags").
Proof.
  intros Hq. destruct (cond_pred_literal q Hq) as (f & Hf & Hspec).
  exists (fun d : Doc => f (d !! "title") || (f (d !! "description") || (f (d !! "tags") || false))).
  split.
  - intros eng. unfold search_clause, clause_pred, any_pred.
    by rewrite !(contains_field eng q f _ (Hf eng)).
  - intros d. rewrite !Hspec, orb_false_r. by rewrite orb_assoc.
Qed.

Lemma filter_pred_literal (animal : option string) (q : string) :
  q <> "" -> Regex.literal q = true ->
  exists p, (forall eng, filter_pred eng (build_filter animal (Some q)) = inr p) /\
    forall d, p d = Spec.selects animal q d.
Proof.
  intros Hne Hq. destruct (search_clause_literal q Hq) as (s & Hs & Hspec).
  exists (fun d => Spec.animal_is animal d && (s d && true)). split.
  - intros eng. unfold build_filter, Spec.animal_is. rewrite (truthy_nonempty q Hne).
    destruct (Py.truthy animal) as [a|];
      cbn [List.app filter_pred clause_pred field_pred cond_pred fst snd]; by rewrite Hs.
  - intros d. unfold Spec.selects. by rewrite Hspec, andb_true_r.
Qed.

(** With a non-empty [animal] parameter the filter only selects documents
    whose [animal] field is that text. *)
Lemma filter_pred_animal eng (a : string) (q : option string) (p : Doc -> bool) (d : Doc) :
  a <> "" -> filter_pred eng (build_filter (Some a) q) = inr p -> p d = true ->
  d !! "animal" = Some (VStr a).
Proof.
  intros Hne. unfold build_filter. rewrite (truthy_nonempty a Hne).
  destruct (Py.truthy q) as [q'|];
    cbn [List.app filter_pred clause_pred field_pred cond_pred fst snd].
  - destruct (clause_pred eng (search_clause q')) as [e|r]; [done|].
    intros [= <-] [H _]%andb_prop. by apply bool_decide_eq_true in H.
  - intros [= <-] [H _]%andb_prop. by apply bool_decide_eq_true in H.
Qed.

Lemma stringify_id_other (it : Doc) (k : string) :
  k <> "_id" -> stringify_id it !! k = it !! k.
Proof. intros H. unfold stringify_id. by rewrite lookup_insert_ne. Qed.

Lemma stringify_id_id (it : Doc) :
  stringify_id it !! "_id" = Some (VStr (Py.str (default VNone (it !! "_id")))).
Proof. unfold stringify_id. by rewrite lookup_insert_eq. Qed.

Lemma elem_of_filter_bool {A} (p : A -> bool) (l : list A) (x : A) :
  x ∈ List.filter p l <-> x ∈ l /\ p x = true.
Proof. rewrite !list_elem_of_In. apply filter_In. Qed.

Lemma filter_all {A} (p : A -> bool) (l : list A) :
  Forall (fun x => p x = true) l -> List.filter p l = l.
Proof. induction 1 as [|x l Hx _ IH]; simpl; [done|]. by rewrite Hx, IH. Qed.

(** Each item of a selection comes from a stored document the filter
    selects. *)
Lemma elem_of_selection (p : Doc -> bool) (docs : list Doc) (n : nat) (it : Doc) :
  it ∈ stringify_id <$> take n (List.filter p docs) ->
  exists d, it = stringify_id d /\ d ∈ docs /\ p d = true.
Proof.
  intros (d & -> & Hd)%list_elem_of_fmap.
  apply (subseteq_take n) in Hd. apply elem_of_filter_bool in Hd as [? ?]. eauto.
Qed.

(** ** Running the gateway *)

Lemma healthy_next_fault w : healthy w -> next_fault w = None.
Proof.
  unfold healthy, next_fault. destruct (faults w) as [|f fs]; [done|].
  by intros [<- _]%Forall_cons.
Qed.

Lemma healthy_tick w : healthy w -> healthy (tick w).
Proof.
  unfold healthy, tick. simpl. destruct (faults w) as [|f fs]; [done|].
  by intros [_ ?]%Forall_cons.
Qed.

Lemma get_documents_down name f n w :
  db w = None -> get_documents name f n w = (inl unavailable, w).
Proof. intros H. unfold get_documents. by rewrite H. Qed.

Lemma get_documents_fault name f n w d msg :
  db w = Some d -> next_fault w = Some msg ->
  get_documents name f n w = (inl (Exc msg), tick w).
Proof.
  intros Hd Hf. unfold get_documents, bind, round_trip. by rewrite Hd, Hf.
Qed.

Lemma get_documents_ok name f n w d :
  db w = Some d -> next_fault w = None ->
  get_documents name f n w =
    match filter_pred (engine w) f with
    | inr p => (inr (take n (List.filter p (collection name d))), tick w)
    | inl e => (inl e, tick w)
    end.
Proof.
  intros Hd Hf. unfold get_documents, bind, round_trip, lift.
  rewrite Hd, Hf. by destruct (filter_pred (engine w) f).
Qed.

Lemma create_document_fault name record w d msg :
  db w = Some d -> next_fault w = Some msg ->
  create_document name record w = (inl (Exc msg), tick w).
Proof.
  intros Hd Hf. unfold create_document, bind, round_trip. by rewrite Hd, Hf.
Qed.

Lemma create_document_ok name record w d :
  db w = Some d -> next_fault w = None ->
  create_document name record w =
    (inr (Py.str_oid (db_next_oid d)),
     set_db (insert_one name (<["_id" := VObjectId (db_next_oid d)]>
                                (Product.model_dump record)) d) (tick w)).
Proof.
  intros Hd Hf. unfold create_document, bind, round_trip. by rewrite Hd, Hf.
Qed.

Lemma collection_insert_one name doc d :
  collection name (insert_one name doc d) = collection name d ++ [doc].
Proof. unfold collection at 1, insert_one. simpl. by rewrite lookup_insert_eq. Qed.

Lemma products_world_of docs : products (world_of docs) = docs.
Proof. reflexivity. Qed.

(** ** GET /api/products *)

(** The three ways a listing ends. *)
Lemma list_products_run animal q w :
  app (GET_api_products animal q) w =
    match db w with
    | None =>
        Some ({| status := 500;
                 content := JDict [("detail", JStr "Database not available")] |}, w)
    | Some d =>
        match next_fault w with
        | Some msg =>
            Some ({| status := 500; content := JDict [("detail", JStr msg)] |}, tick w)
        | None =>
            match filter_pred (engine w) (build_filter animal q) with
            | inr p =>
                Some ({| status := 200;
                         content := items_body (stringify_id <$>
                           take 100 (List.filter p (collection "product" d))) |}, tick w)
            | inl e =>
                Some ({| status := 500; content := JDict [("detail", JStr (str_e e))] |},
                      tick w)
            end
        end
    end.
Proof.
  unfold app, respond, list_products, try_except, bind.
  destruct (db w) as [d|] eqn:Hd.
  - destruct (next_fault w) as [msg|] eqn:Hf.
    + by rewrite (get_documents_fault _ _ _ _ _ _ Hd Hf).
    + rewrite (get_documents_ok _ _ _ _ _ Hd Hf).
      by destruct (filter_pred _ _).
  - by rewrite (get_documents_down _ _ _ _ Hd).
Qed.

Lemma fmap_JDoc_inj (items items' : list Doc) :
  JDoc <$> items = JDoc <$> items' -> items = items'.
Proof.
  revert items'. induction items as [|a l IH]; intros [|b l']; simpl; try done.
  intros H. injection H as -> H. f_equal. by apply IH.
Qed.

(** A successful listing returns the first hundred stored products the
    filter selects, each with its identifier as text. *)
Lemma list_products_success animal q w items w' :
  app (GET_api_products animal q) w =
    Some ({| status := 200; content := items_body items |}, w') ->
  exists p,
    filter_pred (engine w) (build_filter animal q) = inr p /\
    items = stringify_id <$> take 100 (List.filter p (products w)).
Proof.
  rewrite list_products_run. unfold products.
  destruct (db w) as [d|]; [|intros [=]].
  destruct (next_fault w); [intros [=]|].
  destruct (filter_pred _ _) as [e|p]; [intros [=]|].
  intros [= H%fmap_JDoc_inj _]. exists p. by subst.
Qed.

Lemma list_products_literal (animal : option string) (q : string) (w : World) (d : Database) :
  db w = Some d -> next_fault w = None -> q <> "" -> Regex.literal q = true ->
  app (GET_api_products animal (Some q)) w =
    Some ({| status := 200;
             content := items_body (stringify_id <$>
               take 100 (List.filter (Spec.selects animal q) (products w))) |}, tick w).
Proof.
  intros Hd Hf Hne Hq. rewrite list_products_run. unfold products. rewrite Hd, Hf.
  destruct (filter_pred_literal animal q Hne Hq) as (p & -> & Hp).
  simpl. by rewrite (List.filter_ext _ _ Hp).
Qed.

(** A pattern the backend refuses is a storage error of the listing. *)
Example list_products_refused_pattern :
  fst <$> app (GET_api_products None (Some "(")) shelf =
  Some {| status := 500;
          content := JDict [("detail", JStr "Regular expression is invalid")] |}.
Proof. reflexivity. Qed.

Lemma crowd_selected : Forall (fun d => Spec.selects None "neon" d = true) crowd.
Proof.
  apply Forall_app. split; [|by repeat constructor].
  apply Forall_fmap, Forall_forall. by intros i _.
Qed.

(** Of the 101 products of [crowd], the first hundred are listed. *)
Lemma crowd_listing :
  app (GET_api_products None (Some "neon")) (world_of crowd) =
    Some ({| status := 200; content := items_body (stringify_id <$> (neon <$> seq 0 100)) |},
          tick (world_of crowd)).
Proof.
  rewrite (list_products_literal None "neon" _ (database_of crowd)) by done.
  rewrite products_world_of, (filter_all _ _ crowd_selected).
  unfold crowd. rewrite take_app_length'; [done|].
  by rewrite length_fmap, length_seq.
Qed.

Lemma neon_sign_not_listed : stringify_id neon_sign ∉ stringify_id <$> (neon <$> seq 0 100).
Proof.
  intros (d & E & (i & -> & _)%list_elem_of_fmap)%list_elem_of_fmap.
  apply (f_equal (fun m : Doc => m !! "title")) in E.
  rewrite !stringify_id_other in E by done. discriminate E.
Qed.

(** C2, as stated, fails: of 101 stored products whose title contains
    the query, the last one is not returned. *)
Lemma list_products_q_not_iff :
  ~ (forall (q : string) (w : World) (stored : Doc) (items : list Doc) (w' : World),
       stored ∈ products w ->
       app (GET_api_products None (Some q)) w =
         Some ({| status := 200; content := items_body items |}, w') ->
       (stringify_id stored ∈ items <-> Spec.selects None q stored = true)).
Proof.
  intros H.
  destruct (H "neon" (world_of crowd) neon_sign
              (stringify_id <$> (neon <$> seq 0 100)) (tick (world_of crowd)))
    as [_ Hback].
  - rewrite products_world_of. apply elem_of_app. right. by apply list_elem_of_singleton.
  - apply crowd_listing.
  - by apply neon_sign_not_listed, Hback.
Qed.

(** C2 (amended): for a non-empty query without metacharacters, on a
    connected backend whose round trip succeeds, the items returned are
    the first hundred, in stored order, of the stored products whose
    title, description or tags contain the query case-insensitively (and
    whose animal is the [animal] parameter, when one is given), each with
    its identifier as text.  So every item comes from such a product, and
    every such product is returned when at most a hundred are selected. *)
Theorem list_products_q_first_hundred
    (animal : option string) (q : string) (w : World) (d : Database) :
  db w = Some d -> next_fault w = None -> q <> "" -> Regex.literal q = true ->
  exists items,
    app (GET_api_products animal (Some q)) w =
      Some ({| status := 200; content := items_body items |}, tick w) /\
    items = stringify_id <$> take 100 (List.filter (Spec.selects animal q) (products w)) /\
    (forall it, it ∈ items ->
       exists stored, stored ∈ products w /\ Spec.selects animal q stored = true /\
                      it = stringify_id stored) /\
    (List.length (List.filter (Spec.selects animal q) (products w)) <= 100 ->
     forall stored, stored ∈ products w -> Spec.selects animal q stored = true ->
                    stringify_id stored ∈ items).
Proof.
  intros Hd Hf Hne Hq. eexists. split; [by apply (list_products_literal _ _ _ d)|].
  split; [done|]. split.
  - intros it (stored & -> & ? & ?)%elem_of_selection. eauto.
  - intros Hlen stored Hin Hsel. rewrite take_ge by done.
    apply list_elem_of_fmap. exists stored. split; [done|].
    by apply elem_of_filter_bool.
Qed.

Lemma list_products_q_first_hundred_witness :
  exists items,
    app (GET_api_products (Some "cats") (Some "DISCO")) shelf =
      Some ({| status := 200; content := items_body items |}, tick shelf) /\
    items = stringify_id <$>
              take 100 (List.filter (Spec.selects (Some "cats") "DISCO") (products shelf)) /\
    (forall it, it ∈ items ->
       exists stored, stored ∈ products shelf /\
                      Spec.selects (Some "cats") "DISCO" stored = true /\
                      it = stringify_id stored) /\
    (List.length (List.filter (Spec.selects (Some "cats") "DISCO") (products shelf)) <= 100 ->
     forall stored, stored ∈ products shelf ->
                    Spec.selects (Some "cats") "DISCO" stored = true ->
                    stringify_id stored ∈ items).
Proof.
  apply (list_products_q_first_hundred (Some "cats") "DISCO" shelf
           (database_of [glow_collar; disco_ball]));
    [reflexivity | reflexivity | discriminate | reflexivity].
Defined.

(** C4: a successful listing holds at most 100 items, whatever the
    stored products and the query parameters. *)
Theorem list_products_at_most_100
    (animal q : option string) (w : World) (items : list Doc) (w' : World) :
  app (GET_api_products animal q) w =
    Some ({| status := 200; content := items_body items |}, w') ->
  List.length items <= 100.
Proof.
  intros (p & _ & ->)%list_products_success.
  rewrite length_fmap, length_take. lia.
Qed.

Lemma list_products_at_most_100_witness :
  List.length (stringify_id <$> (neon <$> seq 0 100)) <= 100.
Proof.
  apply (list_products_at_most_100 None (Some "neon") (world_of crowd) _
           (tick (world_of crowd))).
  reflexivity.
Defined.

(** C5: with a non-empty [animal] parameter, every returned record has
    an [animal] field equal to it; a record whose [animal] is another
    value, or absent, is not returned. *)
Theorem list_products_animal_exact
    (animal : string) (q : option string) (w : World) (items : list Doc) (w' : World) :
  animal <> "" ->
  app (GET_api_products (Some animal) q) w =
    Some ({| status := 200; content := items_body items |}, w') ->
  forall it, it ∈ items -> it !! "animal" = Some (VStr animal).
Proof.
  intros Hne (p & Hp & ->)%list_products_success it
         (stored & -> & _ & Hsel)%elem_of_selection.
  rewrite stringify_id_other by done.
  by apply (filter_pred_animal (engine w) animal q p).
Qed.

Lemma list_products_animal_exact_witness :
  stringify_id disco_ball !! "animal" = Some (VStr "cats").
Proof.
  apply (list_products_animal_exact "cats" None shelf [stringify_id disco_ball] (tick shelf)).
  - discriminate.
  - reflexivity.
  - apply list_elem_of_here.
Defined.

(** C9: an empty [animal] or [q] is the same request as one without the
    parameter. *)
Theorem list_products_empty_parameter (animal q : option string) (w : World) :
  app (GET_api_products (Some "") q) w = app (GET_api_products None q) w /\
  app (GET_api_products animal (Some "")) w = app (GET_api_products animal None) w.
Proof. split; reflexivity. Qed.

(** C10: every returned item holds a text under [_id], the [str] of the
    stored identifier; a stored document without [_id] is returned with
    the text "None". *)
Theorem list_products_id_is_text
    (animal q : option string) (w : World) (items : list Doc) (w' : World) :
  app (GET_api_products animal q) w =
    Some ({| status := 200; content := items_body items |}, w') ->
  forall it, it ∈ items ->
    exists stored,
      stored ∈ products w /\
      it = stringify_id stored /\
      it !! "_id" = Some (VStr (Py.str (default VNone (stored !! "_id")))) /\
      (stored !! "_id" = None -> it !! "_id" = Some (VStr "None")).
Proof.
  intros (p & _ & ->)%list_products_success it (stored & -> & Hin & _)%elem_of_selection.
  exists stored. repeat split; try done.
  - apply stringify_id_id.
  - intros Hnone. by rewrite stringify_id_id, Hnone.
Qed.

Lemma list_products_id_is_text_witness :
  exists stored,
    stored ∈ products (world_of [stray]) /\
    stringify_id stray = stringify_id stored /\
    stringify_id stray !! "_id" = Some (VStr (Py.str (default VNone (stored !! "_id")))) /\
    (stored !! "_id" = None -> stringify_id stray !! "_id" = Some (VStr "None")).
Proof.
  apply (list_products_id_is_text None None (world_of [stray]) [stringify_id stray]
           (tick (world_of [stray]))).
  - reflexivity.
  - apply list_elem_of_here.
Defined.

(** ** POST /api/products *)






(** A complete body on a healthy backend is stored and answered with
    201 and the new identifier. *)
Example create_product_201 :
  (fun r => (r.1, List.length (products r.2))) <$>
    app (POST_api_products laser_mouse) (world_of []) =
  Some ({| status := 201; content := JDict [("id", JStr "000000000000000000000000")] |}, 1).
Proof. reflexivity. Qed.

(** The second validation pass answers 400 with the error text. *)
Example create_product_empty_title_400 :
  app (POST_api_products (<["title" := JStr ""]> laser_mouse)) (world_of []) =
  Some ({| status := 400;
           content := JDict [("detail", JStr "1 validation error for Product: title")] |},
        world_of []).
Proof. reflexivity. Qed.

(** ** Storage errors *)

(** The listing and the seeding answer a storage error with 500 and the
    error text. *)
Lemma list_products_storage_error_500 animal q w d msg :
  db w = Some d -> next_fault w = Some msg ->
  app (GET_api_products animal q) w =
    Some ({| status := 500; content := JDict [("detail", JStr msg)] |}, tick w).
Proof. intros Hd Hf. rewrite list_products_run. by rewrite Hd, Hf. Qed.

Lemma seed_products_storage_error_500 w d msg :
  db w = Some d -> next_fault w = Some msg ->
  app POST_api_seed w =
    Some ({| status := 500; content := JDict [("detail", JStr msg)] |}, tick w).
Proof.
  intros Hd Hf. unfold app, respond, seed_products, try_except, bind.
  by rewrite (get_documents_fault _ _ _ _ _ _ Hd Hf).
Qed.

(** Whatever the payload the canonical shape accepts, a storage error of
    the insertion is answered with 400. *)
Lemma respond_create_product_fault payload prod w d msg :
  Product_init payload w = (inr prod, w) ->
  db w = Some d -> next_fault w = Some msg ->
  respond 201 (create_product payload) w =
    ({| status := 400; content := JDict [("detail", JStr msg)] |}, tick w).
Proof.
  intros Hp Hd Hf. unfold respond, create_product, try_except, bind.
  by rewrite Hp, (create_document_fault _ _ _ _ _ Hd Hf).
Qed.

(** C6 fails on the creation endpoint: a complete creation request whose
    insertion loses the connection is answered with 400 and the error
    text, not with 500; nothing is stored. *)
Lemma create_product_storage_error_400 :
  app (POST_api_products laser_mouse) (flaky [] "connection lost") =
    Some ({| status := 400; content := JDict [("detail", JStr "connection lost")] |},
          world_of []).
Proof. reflexivity. Qed.

(** With the storage handle unset it is 400 as well. *)
Example create_product_unavailable_400 :
  fst <$> app (POST_api_products laser_mouse)
            {| environ := ∅; db_import := None; db := None; faults := []; engine := refusing |} =
  Some {| status := 400; content := JDict [("detail", JStr "Database not available")] |}.
Proof. reflexivity. Qed.

(** ** GET / *)

(** C8: the root always answers 200 with one fixed, non-empty message
    and leaves the world as it is: no storage round trip is made. *)
Theorem read_root_fixed :
  exists message,
    message <> "" /\
    forall w, app GET_root w =
      Some ({| status := 200; content := JDict [("message", JStr message)] |}, w).
Proof. exists "Extravagant Pet Shop Backend is live!". by split. Qed.

(** ** GET /test *)


(** A probe that fails is reported in the [database] text. *)
Example test_database_probe_error :
  fst <$> app GET_test (flaky [] "timed out") =
  Some {| status := 200;
          content := JDict [("backend", JStr "✅ Running");
                            ("database", JStr "⚠️ Connected but Error: timed out");
                            ("database_url", JStr "❌ Not Set");
                            ("database_name", JStr "petshop");
                            ("connection_status", JStr "Connected");
                            ("collections", JList [])] |}.
Proof. reflexivity. Qed.

(** ** POST /api/seed *)

Lemma Product_init_valid (kw : ProductCreate.t) (w : World) :
  valid kw ->
  exists prod, Product_init kw w = (inr prod, w) /\
               title_of (Product.model_dump prod) = Some (VStr (ProductCreate.title kw)).
Proof.
  intros (Ht & Hp & [c Hc] & [r Hr] & [t Htags]). unfold Product_init.
  apply String.eqb_neq in Ht. rewrite Ht, Hp, Hc, Hr, Htags. simpl.
  eexists. split; reflexivity.
Qed.

(** On a healthy backend the loop inserts one product per dictionary, in
    order, and counts them. *)
Lemma seed_loop_ok (ds : list ProductCreate.t) :
  forall (inserted : Z) (w : World) (d : Database),
    db w = Some d -> healthy w -> Forall valid ds ->
    exists w' d',
      seed_loop ds inserted w = (inr (inserted + Z.of_nat (List.length ds))%Z, w') /\
      db w' = Some d' /\
      title_of <$> collection "product" d' =
        (title_of <$> collection "product" d) ++
        ((fun kw => Some (VStr (ProductCreate.title kw))) <$> ds).
Proof.
  induction ds as [|kw ds IH]; intros inserted w d Hd Hw Hvalid.
  - exists w, d. simpl. rewrite Z.add_0_r, app_nil_r. done.
  - apply Forall_cons in Hvalid as [Hkw Hds].
    destruct (Product_init_valid kw w Hkw) as (prod & Hinit & Htitle).
    set (doc := <["_id" := VObjectId (db_next_oid d)]> (Product.model_dump prod)).
    destruct (IH (inserted + 1)%Z (set_db (insert_one "product" doc d) (tick w))
                (insert_one "product" doc d) eq_refl (healthy_tick w Hw) Hds)
      as (w' & d' & Hrun & Hd' & Htitles).
    exists w', d'. split; [|split; [done|]].
    + cbn [seed_loop]. unfold bind at 1. rewrite Hinit. unfold bind at 1.
      rewrite (create_document_ok _ _ _ _ Hd (healthy_next_fault w Hw)).
      fold doc. rewrite Hrun. do 2 f_equal. simpl List.length. lia.
    + rewrite Htitles, collection_insert_one, fmap_app, <- app_assoc. simpl.
      do 2 f_equal. unfold title_of, doc. by rewrite lookup_insert_ne.
Qed.

Lemma demo_products_valid : Forall valid demo_products.
Proof. repeat constructor; try done; by eexists. Qed.

(** After the emptiness check, which takes one round trip. *)
Lemma seed_products_run (w : World) (d : Database) :
  db w = Some d -> next_fault w = None ->
  app POST_api_seed w =
    match collection "product" d with
    | _ :: _ =>
        Some ({| status := 200;
                 content := JDict [("status", JStr "skipped");
                                   ("message", JStr "Products already exist")] |}, tick w)
    | [] =>
        Some (respond 200
                (try_except
                   (inserted <- seed_loop demo_products 0 ;;
                    ret (JDict [("status", JStr "ok"); ("inserted", JInt inserted)]))%py
                   (fun e => raise (HTTPException 500 (str_e e)))) (tick w))
    end.
Proof.
  intros Hd Hf. unfold app, respond, seed_products, try_except, bind at 1.
  rewrite (get_documents_ok _ _ _ _ _ Hd Hf). cbn [filter_pred].
  rewrite filter_all by by apply Forall_forall.
  by destruct (collection "product" d).
Qed.

(** C3: on a healthy backend, seeding an empty collection stores the five
    demonstration products, in the order of their titles, and answers
    with status "ok" and 5 inserted; seeding a collection that holds a
    product answers "skipped" and leaves the database as it was. *)
Theorem seed_products_once (w : World) (d : Database) :
  db w = Some d -> healthy w ->
  exists w',
    match collection "product" d with
    | [] =>
        app POST_api_seed w =
          Some ({| status := 200;
                   content := JDict [("status", JStr "ok"); ("inserted", JInt 5)] |}, w') /\
        title_of <$> products w' =
          [Some (VStr "Neon Glow Collar"); Some (VStr "Catnip Disco Ball");
           Some (VStr "Tropical Reef Palace"); Some (VStr "Feather Carnival Wand");
           Some (VStr "Birdie Neon Gym")]
    | _ :: _ =>
        app POST_api_seed w =
          Some ({| status := 200;
                   content := JDict [("status", JStr "skipped");
                                     ("message", JStr "Products already exist")] |}, w') /\
        db w' = db w
    end.
Proof.
  intros Hd Hw. rewrite (seed_products_run w d Hd (healthy_next_fault w Hw)).
  destruct (collection "product" d) as [|doc docs] eqn:Hdocs.
  - destruct (seed_loop_ok demo_products 0 (tick w) d Hd (healthy_tick w Hw)
                demo_products_valid) as (w' & d' & Hloop & Hd' & Htitles).
    exists w'. unfold respond, try_except, bind. rewrite Hloop. split; [done|].
    unfold products. rewrite Hd'. simpl. by rewrite Htitles, Hdocs.
  - by exists (tick w).
Qed.

Lemma seed_products_once_witness :
  (exists w',
     app POST_api_seed (world_of []) =
       Some ({| status := 200;
                content := JDict [("status", JStr "ok"); ("inserted", JInt 5)] |}, w') /\
     title_of <$> products w' =
       [Some (VStr "Neon Glow Collar"); Some (VStr "Catnip Disco Ball");
        Some (VStr "Tropical Reef Palace"); Some (VStr "Feather Carnival Wand");
        Some (VStr "Birdie Neon Gym")]) /\
  (exists w',
     app POST_api_seed shelf =
       Some ({| status := 200;
                content := JDict [("status", JStr "skipped");
                                  ("message", JStr "Products already exist")] |}, w') /\
     db w' = db shelf).
Proof.
  split.
  - exact (seed_products_once (world_of []) (database_of []) eq_refl
             (List.Forall_nil _)).
  - exact (seed_products_once shelf (database_of [glow_collar; disco_ball]) eq_refl
             (List.Forall_nil _)).
Defined.

(** * Further properties of the handlers *)

(** ** More on GET /test *)


(** X1: with the storage handle unset the report says so, every other
    entry keeps its initial value, and no round trip is made. *)
Theorem test_database_unset (w : World) :
  db_import w = None -> db w = None ->
  app GET_test w =
    Some ({| status := 200;
             content := report "⚠️ Available but not initialized" JNull JNull
                          "Not Connected" [] |}, w).
Proof.
  intros Hi Hd.
  unfold app, respond, test_database, bind, try_except, import_db. by rewrite Hi, Hd.
Qed.

Lemma test_database_unset_witness :
  app GET_test offline =
    Some ({| status := 200;
             content := report "⚠️ Available but not initialized" JNull JNull
                          "Not Connected" [] |}, offline).
Proof. apply (test_database_unset offline); reflexivity. Defined.







(** X5: the diagnostic endpoint never changes the database nor the
    environment, and makes at most one round trip. *)
Theorem test_database_read_only (w w' : World) (r : Response) :
  app GET_test w = Some (r, w') ->
  db w' = db w /\ environ w' = environ w /\ (w' = w \/ w' = tick w).
Proof.
  unfold app, respond, test_database, bind, try_except, import_db, getenv,
    list_collection_names, round_trip, bind, ret, raise.
  destruct (db_import w); [|destruct (db w) eqn:Hd]; [| destruct (next_fault w) |];
    intros [= _ <-]; repeat split; auto.
Qed.

Lemma test_database_read_only_witness :
  db (tick shelf) = db shelf /\ environ (tick shelf) = environ shelf /\
  (tick shelf = shelf \/ tick shelf = tick shelf).
Proof. eapply (test_database_read_only shelf (tick shelf)). reflexivity. Defined.

(** ** More on GET /api/products *)

(** X6: a storage error of the listing or of the seeding is answered with
    500 and the whole error text, of any length; the database is left as
    it was. *)
Theorem storage_error_is_500
    (animal q : option string) (w : World) (d : Database) (msg : string) :
  db w = Some d -> next_fault w = Some msg ->
  app (GET_api_products animal q) w =
    Some ({| status := 500; content := JDict [("detail", JStr msg)] |}, tick w) /\
  app POST_api_seed w =
    Some ({| status := 500; content := JDict [("detail", JStr msg)] |}, tick w) /\
  db (tick w) = db w.
Proof.
  intros Hd Hf. split; [by apply (list_products_storage_error_500 _ _ _ d)|].
  split; [by apply (seed_products_storage_error_500 _ d)|done].
Qed.

Lemma storage_error_is_500_witness :
  app (GET_api_products None None) (flaky [] "timed out") =
    Some ({| status := 500; content := JDict [("detail", JStr "timed out")] |},
          tick (flaky [] "timed out")) /\
  app POST_api_seed (flaky [] "timed out") =
    Some ({| status := 500; content := JDict [("detail", JStr "timed out")] |},
          tick (flaky [] "timed out")) /\
  db (tick (flaky [] "timed out")) = db (flaky [] "timed out").
Proof.
  apply (storage_error_is_500 None None (flaky [] "timed out") (database_of []) "timed out");
    reflexivity.
Defined.

Lemma search_clause_pred eng (q : string) (r : Doc -> bool) :
  clause_pred eng (search_clause q) = inr r ->
  exists f, forall d : Doc,
    r d = f (d !! "title") || (f (d !! "description") || (f (d !! "tags") || false)).
Proof.
  unfold search_clause, clause_pred, any_pred, field_pred. simpl fst. simpl snd.
  destruct (cond_pred eng (Regex q "i")) as [e|f]; [done|].
  intros [= <-]. by exists f.
Qed.

(** The filter of a listing is made of the [animal] test and of the
    search test, each present when its parameter is not empty. *)
Lemma filter_pred_build eng (animal q : option string) (p : Doc -> bool) :
  filter_pred eng (build_filter animal q) = inr p ->
  exists pa pq,
    (forall d, p d = pa d && pq d) /\
    match Py.truthy animal with
    | Some a => pa = animal_equals a
    | None => pa = fun _ => true
    end /\
    match Py.truthy q with
    | Some q' => exists r, clause_pred eng (search_clause q') = inr r /\ pq = r
    | None => pq = fun _ => true
    end.
Proof.
  unfold build_filter.
  destruct (Py.truthy animal) as [a|], (Py.truthy q) as [q'|];
    cbn [List.app filter_pred clause_pred field_pred cond_pred fst snd].
  - destruct (clause_pred eng (search_clause q')) as [e|r] eqn:Hr; [done|].
    intros [= <-]. exists (animal_equals a), r. split; [|by eauto].
    intros d. unfold animal_equals. by rewrite andb_true_r.
  - intros [= <-]. by exists (animal_equals a), (fun _ => true).
  - destruct (clause_pred eng (search_clause q')) as [e|r] eqn:Hr; [done|].
    intros [= <-]. exists (fun _ => true), r. split; [|by eauto].
    intros d. by rewrite andb_true_r.
  - intros [= <-]. by exists (fun _ => true), (fun _ => true).
Qed.

(** The filter reads the four searched keys only. *)
Lemma filter_reads_searched_keys eng (animal q : option string) (p : Doc -> bool)
    (d1 d2 : Doc) :
  filter_pred eng (build_filter animal q) = inr p ->
  (forall k, k ∈ searched_keys -> d1 !! k = d2 !! k) ->
  p d1 = p d2.
Proof.
  intros (pa & pq & Hp & Ha & Hq)%filter_pred_build Hkeys.
  assert (Hanimal : d1 !! "animal" = d2 !! "animal") by (apply Hkeys; compute_done).
  assert (Htitle : d1 !! "title" = d2 !! "title") by (apply Hkeys; compute_done).
  assert (Hdesc : d1 !! "description" = d2 !! "description") by (apply Hkeys; compute_done).
  assert (Htags : d1 !! "tags" = d2 !! "tags") by (apply Hkeys; compute_done).
  rewrite !Hp. f_equal.
  - destruct (Py.truthy animal); subst pa; [|done].
    unfold animal_equals. by rewrite Hanimal.
  - destruct (Py.truthy q) as [q'|]; [|by subst pq].
    destruct Hq as (r & Hr & ->). apply search_clause_pred in Hr as [f Hf].
    by rewrite !Hf, Htitle, Hdesc, Htags.
Qed.

Lemma stringify_id_agree (d1 d2 : Doc) (k : string) :
  stringify_id d1 = stringify_id d2 -> k <> "_id" -> d1 !! k = d2 !! k.
Proof.
  intros E Hk. apply (f_equal (fun m : Doc => m !! k)) in E.
  by rewrite !stringify_id_other in E.
Qed.

Lemma searched_keys_not_id (k : string) : k ∈ searched_keys -> k <> "_id".
Proof.
  intros Hk ->. revert Hk. apply (bool_decide_unpack ("_id" ∉ searched_keys)). reflexivity.
Qed.

Lemma length_filter_le {A} (p : A -> bool) (l : list A) :
  List.length (List.filter p l) <= List.length l.
Proof. induction l as [|x l IH]; simpl; [done|]. destruct (p x); simpl; lia. Qed.

Lemma sublist_filter_bool {A} (p : A -> bool) (l : list A) : sublist (List.filter p l) l.
Proof.
  induction l as [|x l IH]; simpl; [done|].
  destruct (p x); by constructor.
Qed.

(** Without truncation, an item is listed exactly when it comes from a
    stored product the filter selects. *)
Lemma elem_of_untruncated (p : Doc -> bool) (docs : list Doc) (it : Doc) :
  List.length docs <= 100 ->
  it ∈ stringify_id <$> take 100 (List.filter p docs) <->
  exists d, it = stringify_id d /\ d ∈ docs /\ p d = true.
Proof.
  intros Hlen. rewrite take_ge by (pose proof (length_filter_le p docs); lia).
  rewrite list_elem_of_fmap. setoid_rewrite elem_of_filter_bool. naive_solver.
Qed.

(** X7: a listing, successful or not, leaves the database as it was and
    makes at most one round trip. *)
Theorem list_products_read_only (animal q : option string) (w w' : World) (r : Response) :
  app (GET_api_products animal q) w = Some (r, w') ->
  db w' = db w /\ (w' = w \/ w' = tick w).
Proof.
  rewrite list_products_run.
  destruct (db w) eqn:Hd; [destruct (next_fault w); [|destruct (filter_pred _ _)]|];
    intros [= _ <-]; auto.
Qed.

Lemma list_products_read_only_witness :
  db (tick shelf) = db shelf /\ (tick shelf = shelf \/ tick shelf = tick shelf).
Proof.
  apply (list_products_read_only (Some "cats") None shelf (tick shelf)
           {| status := 200; content := items_body [stringify_id disco_ball] |}).
  reflexivity.
Defined.

(** X8: the items of a successful listing are stored products in their
    stored order: the list is the image of a sublist of the collection. *)
Theorem list_products_stored_order
    (animal q : option string) (w : World) (items : list Doc) (w' : World) :
  app (GET_api_products animal q) w =
    Some ({| status := 200; content := items_body items |}, w') ->
  exists selected, items = stringify_id <$> selected /\ sublist selected (products w).
Proof.
  intros (p & _ & ->)%list_products_success. eexists. split; [done|].
  etrans; [apply sublist_take | apply sublist_filter_bool].
Qed.

Lemma list_products_stored_order_witness :
  exists selected,
    [stringify_id disco_ball] = stringify_id <$> selected /\ sublist selected (products shelf).
Proof.
  apply (list_products_stored_order (Some "cats") None shelf _ (tick shelf)). reflexivity.
Defined.

(** X9: without a non-empty parameter the listing returns the first
    hundred stored products, all of them when there are at most a
    hundred. *)
Theorem list_products_unfiltered (animal q : option string) (w : World) (d : Database) :
  Py.truthy animal = None -> Py.truthy q = None ->
  db w = Some d -> next_fault w = None ->
  app (GET_api_products animal q) w =
    Some ({| status := 200;
             content := items_body (stringify_id <$> take 100 (products w)) |}, tick w).
Proof.
  intros Ha Hq Hd Hf. rewrite list_products_run, Hd, Hf. unfold build_filter, products.
  rewrite Ha, Hq, Hd. simpl. by rewrite filter_all by by apply Forall_forall.
Qed.

Lemma list_products_unfiltered_witness :
  app (GET_api_products None (Some "")) shelf =
    Some ({| status := 200;
             content := items_body (stringify_id <$> take 100 (products shelf)) |}, tick shelf).
Proof.
  apply (list_products_unfiltered None (Some "") shelf (database_of [glow_collar; disco_ball]));
    reflexivity.
Defined.

(** X10: with a non-empty [animal] and no [q] the listing returns the
    first hundred of the products whose [animal] is that text. *)
Theorem list_products_animal_only (animal : string) (q : option string) (w : World)
    (d : Database) :
  animal <> "" -> Py.truthy q = None -> db w = Some d -> next_fault w = None ->
  app (GET_api_products (Some animal) q) w =
    Some ({| status := 200;
             content := items_body (stringify_id <$>
                          take 100 (List.filter (animal_equals animal) (products w))) |},
          tick w).
Proof.
  intros Ha Hq Hd Hf. rewrite list_products_run, Hd, Hf. unfold build_filter, products.
  rewrite (truthy_nonempty animal Ha), Hq, Hd.
  cbn [List.app filter_pred clause_pred field_pred cond_pred fst snd from_option].
  by rewrite (List.filter_ext _ (animal_equals animal))
    by (intros doc; apply andb_true_r).
Qed.

Lemma list_products_animal_only_witness :
  app (GET_api_products (Some "cats") None) shelf =
    Some ({| status := 200;
             content := items_body (stringify_id <$>
                          take 100 (List.filter (animal_equals "cats") (products shelf))) |},
          tick shelf).
Proof.
  apply (list_products_animal_only "cats" None shelf (database_of [glow_collar; disco_ball]));
    [discriminate | reflexivity | reflexivity | reflexivity].
Defined.

(** X11: the listing reads [animal], [title], [description] and [tags]
    only: of two stored products that agree on these four keys, both are
    returned or neither (when no truncation occurs). *)
Theorem list_products_reads_searched_keys
    (animal q : option string) (w : World) (items : list Doc) (w' : World) (d1 d2 : Doc) :
  app (GET_api_products animal q) w =
    Some ({| status := 200; content := items_body items |}, w') ->
  List.length (products w) <= 100 ->
  d1 ∈ products w -> d2 ∈ products w ->
  (forall k, k ∈ searched_keys -> d1 !! k = d2 !! k) ->
  (stringify_id d1 ∈ items <-> stringify_id d2 ∈ items).
Proof.
  intros (p & Hp & ->)%list_products_success Hlen H1 H2 Hkeys.
  assert (Hsame : forall a b : Doc, a ∈ products w -> b ∈ products w ->
            (forall k, k ∈ searched_keys -> a !! k = b !! k) ->
            stringify_id a ∈ stringify_id <$> take 100 (List.filter p (products w)) ->
            stringify_id b ∈ stringify_id <$> take 100 (List.filter p (products w))).
  { intros a b Ha Hb Hab (c & Hc & _ & Hpc)%elem_of_untruncated; [|done].
    apply elem_of_untruncated; [done|]. exists b. split; [done|]. split; [done|].
    rewrite <- Hpc, <- (filter_reads_searched_keys _ _ _ _ a b Hp Hab).
    apply (filter_reads_searched_keys _ _ _ _ a c Hp).
    intros k Hk. apply stringify_id_agree; [done|]. by apply searched_keys_not_id. }
  split; apply Hsame; try done. intros k Hk. symmetry. by apply Hkeys.
Qed.

Lemma list_products_reads_searched_keys_witness :
  stringify_id disco_ball ∈ [stringify_id disco_ball; stringify_id disco_twin] <->
  stringify_id disco_twin ∈ [stringify_id disco_ball; stringify_id disco_twin].
Proof.
  apply (list_products_reads_searched_keys (Some "cats") (Some "disco")
           (world_of [disco_ball; disco_twin]) _ (tick (world_of [disco_ball; disco_twin]))).
  - reflexivity.
  - rewrite products_world_of. simpl. lia.
  - apply list_elem_of_here.
  - apply list_elem_of_further, list_elem_of_here.
  - intros k Hk.
    repeat (apply elem_of_cons in Hk as [->|Hk]; [reflexivity|]).
    by apply elem_of_nil in Hk.
Defined.

(** X12: the two parameters are independent restrictions: without
    truncation, an item is returned for [animal] and [q] together exactly
    when it is returned for [animal] alone and for [q] alone. *)
Theorem list_products_parameters_compose
    (animal q : option string) (w : World) (both by_animal by_q : list Doc)
    (w1 w2 w3 : World) :
  List.length (products w) <= 100 ->
  app (GET_api_products animal q) w =
    Some ({| status := 200; content := items_body both |}, w1) ->
  app (GET_api_products animal None) w =
    Some ({| status := 200; content := items_body by_animal |}, w2) ->
  app (GET_api_products None q) w =
    Some ({| status := 200; content := items_body by_q |}, w3) ->
  forall it, it ∈ both <-> it ∈ by_animal /\ it ∈ by_q.
Proof.
  intros Hlen (pb & Hb & ->)%list_products_success (pa & Ha & ->)%list_products_success
         (pq & Hq & ->)%list_products_success it.
  rewrite !elem_of_untruncated by done.
  assert (Hagree : forall a b : Doc, stringify_id a = stringify_id b -> pq a = pq b).
  { intros a b E. apply (filter_reads_searched_keys _ _ _ _ a b Hq).
    intros k Hk. apply stringify_id_agree; [done|]. by apply searched_keys_not_id. }
  apply filter_pred_build in Hb as (pb1 & pb2 & Hpb & Hb1 & Hb2).
  apply filter_pred_build in Ha as (pa1 & pa2 & Hpa & Ha1 & Ha2).
  apply filter_pred_build in Hq as (pq1 & pq2 & Hpq & Hq1 & Hq2).
  simpl in Ha2, Hq1. subst pa2 pq1.
  assert (E1 : pa1 = pb1) by (destruct (Py.truthy animal); congruence).
  assert (E2 : pq2 = pb2).
  { destruct (Py.truthy q); [|congruence].
    destruct Hb2 as (r & Hr & ->), Hq2 as (r' & Hr' & ->). congruence. }
  subst pa1 pq2.
  assert (Hpa' : forall d, pa d = pb1 d) by (intros d; by rewrite Hpa, andb_true_r).
  assert (Hpq' : forall d, pq d = pb2 d) by (intros d; by rewrite Hpq).
  split.
  - intros (d & -> & Hd & Hsel). rewrite Hpb in Hsel. apply andb_prop in Hsel as [H1 H2].
    split; exists d; (split; [done|]); (split; [done|]).
    + by rewrite Hpa'.
    + by rewrite Hpq'.
  - intros [(d1 & -> & Hd1 & Hs1) (d2 & E & Hd2 & Hs2)].
    exists d1. split; [done|]. split; [done|].
    rewrite Hpb, <- Hpa', <- Hpq', Hs1, (Hagree d1 d2 E), Hs2. done.
Qed.

Lemma list_products_parameters_compose_witness :
  stringify_id disco_ball ∈ [stringify_id disco_ball] <->
  stringify_id disco_ball ∈ [stringify_id disco_ball] /\
  stringify_id disco_ball ∈ [stringify_id disco_ball].
Proof.
  apply (list_products_parameters_compose (Some "cats") (Some "disco") shelf
           [stringify_id disco_ball] [stringify_id disco_ball] [stringify_id disco_ball]
           (tick shelf) (tick shelf) (tick shelf));
    [unfold shelf; rewrite products_world_of; simpl; lia | reflexivity ..].
Defined.

(** ** More on POST /api/products *)

(** [Product] validation reads no state and leaves the world alone. *)
Lemma Product_init_pure (kw : ProductCreate.t) (w : World) :
  Product_init kw w = (fst (Product_init kw offline), w).
Proof.
  unfold Product_init.
  destruct (String.eqb _ _); [done|]. destruct (negb _); [done|].
  by destruct (ProductCreate.colors kw), (ProductCreate.rating kw), (ProductCreate.tags kw).
Qed.

Lemma Product_init_fields (kw : ProductCreate.t) (w : World) (prod : Product.t) :
  fst (Product_init kw w) = inr prod ->
  Product.title prod = ProductCreate.title kw /\
  Product.price prod = ProductCreate.price kw /\
  Product.category prod = ProductCreate.category kw /\
  ProductCreate.colors kw = Some (Product.colors prod) /\
  ProductCreate.rating kw = Some (Product.rating prod) /\
  ProductCreate.tags kw = Some (Product.tags prod) /\
  Product.in_stock prod = ProductCreate.in_stock kw.
Proof.
  unfold Product_init.
  destruct (String.eqb _ _); [done|]. destruct (negb _); [done|].
  destruct (ProductCreate.colors kw), (ProductCreate.rating kw), (ProductCreate.tags kw);
    try done.
  by intros [= <-].
Qed.

(** X13: when the second validation refuses the payload, the answer is
    400 with the error text, and the handler stops before the insertion:
    no round trip is made and nothing is stored. *)
Theorem create_product_validation_error
    (body : gmap string Json) (payload : ProductCreate.t) (w : World) (e : Exception) :
  Body.decode body = Some (inr payload) ->
  fst (Product_init payload w) = inl e ->
  app (POST_api_products body) w =
    Some ({| status := 400; content := JDict [("detail", JStr (str_e e))] |}, w).
Proof.
  intros Hbody He. unfold app. rewrite Hbody.
  unfold respond, create_product, try_except, bind.
  rewrite Product_init_pure in He |- *. simpl in He. by rewrite He.
Qed.

Lemma create_product_validation_error_witness :
  app (POST_api_products (<["title" := JStr ""]> laser_mouse)) (world_of []) =
    Some ({| status := 400;
             content := JDict [("detail", JStr (str_e (Product.validation_error "title")))] |},
          world_of []).
Proof.
  apply (create_product_validation_error _ (laser_mouse_payload "")); reflexivity.
Defined.

(** X14: a creation that passes both validations on a backend whose
    round trip succeeds is answered with 201 and the text of the assigned
    identifier; exactly one document, the record's fields under that
    identifier, is appended to the products, in one round trip. *)
Theorem create_product_stores
    (body : gmap string Json) (payload : ProductCreate.t) (prod : Product.t)
    (w : World) (d : Database) :
  Body.decode body = Some (inr payload) ->
  fst (Product_init payload w) = inr prod ->
  db w = Some d -> next_fault w = None ->
  exists w',
    app (POST_api_products body) w =
      Some ({| status := 201;
               content := JDict [("id", JStr (Py.str_oid (db_next_oid d)))] |}, w') /\
    products w' = products w ++ [stored_doc d prod] /\
    faults w' = tail (faults w).
Proof.
  intros Hbody Hprod Hd Hf. eexists. split; [|split].
  - unfold app. rewrite Hbody. unfold respond, create_product, try_except, bind.
    rewrite Product_init_pure in Hprod |- *. simpl in Hprod. rewrite Hprod.
    by rewrite (create_document_ok _ _ _ _ Hd Hf).
  - unfold products. rewrite Hd. simpl. by rewrite collection_insert_one.
  - done.
Qed.

Lemma create_product_stores_witness :
  exists w',
    app (POST_api_products laser_mouse) shelf =
      Some ({| status := 201;
               content := JDict [("id", JStr (Py.str_oid (db_next_oid
                                    (database_of [glow_collar; disco_ball]))))] |}, w') /\
    products w' =
      products shelf ++ [stored_doc (database_of [glow_collar; disco_ball]) laser_mouse_product] /\
    faults w' = tail (faults shelf).
Proof.
  apply (create_product_stores laser_mouse (laser_mouse_payload "Laser Mouse")
           laser_mouse_product shelf (database_of [glow_collar; disco_ball])); reflexivity.
Defined.

Lemma optional_absent {T} (read : Json -> option T) (dflt : option T) (o : option Json)
    (v : option T) :
  o = None -> Body.optional read dflt o = Some v -> v = dflt.
Proof. intros ->. simpl. congruence. Qed.

Lemma defaulted_absent {T} (read : Json -> option T) (dflt : T) (o : option Json) (v : T) :
  o = None -> Body.defaulted read dflt o = Some v -> v = dflt.
Proof. intros ->. simpl. congruence. Qed.

(** What decoding a body gives for each of its keys. *)
Lemma decode_fields (body : gmap string Json) (payload : ProductCreate.t) :
  Body.decode body = Some (inr payload) ->
  body !! "title" ≫= Body.as_str = Some (ProductCreate.title payload) /\
  body !! "price" ≫= Body.as_float = Some (ProductCreate.price payload) /\
  body !! "category" ≫= Body.as_str = Some (ProductCreate.category payload) /\
  Body.optional Body.as_str None (body !! "description") =
    Some (ProductCreate.description payload) /\
  Body.optional Body.as_str None (body !! "image_url") =
    Some (ProductCreate.image_url payload) /\
  Body.optional Body.as_str None (body !! "animal") = Some (ProductCreate.animal payload) /\
  Body.optional Body.as_str_list (Some []) (body !! "colors") =
    Some (ProductCreate.colors payload) /\
  Body.optional Body.as_float (Some (Float10 45 (-1))) (body !! "rating") =
    Some (ProductCreate.rating payload) /\
  Body.optional Body.as_str_list (Some []) (body !! "tags") =
    Some (ProductCreate.tags payload) /\
  Body.defaulted Body.as_bool true (body !! "in_stock") =
    Some (ProductCreate.in_stock payload).
Proof.
  unfold Body.decode. destruct (Body.missing body); [|done].
  intros H. 
  repeat match type of H with
         | (?o ≫= _) = Some _ =>
             let x := fresh "x" in let E := fresh "E" in
             destruct o as [x|] eqn:E; simpl in H; [|done]
         end.
  injection H as <-. simpl. by rewrite ?E, ?E0, ?E1.
Qed.

Lemma model_dump_keys (prod : Product.t) :
  Product.model_dump prod !! "_id" = None /\
  Product.model_dump prod !! "title" = Some (VStr (Product.title prod)) /\
  Product.model_dump prod !! "price" = Some (VFloat (Product.price prod)) /\
  Product.model_dump prod !! "category" = Some (VStr (Product.category prod)) /\
  Product.model_dump prod !! "colors" = Some (VList (Product.colors prod)) /\
  Product.model_dump prod !! "rating" = Some (VFloat (Product.rating prod)) /\
  Product.model_dump prod !! "tags" = Some (VList (Product.tags prod)) /\
  Product.model_dump prod !! "in_stock" = Some (VBool (Product.in_stock prod)).
Proof. repeat split; reflexivity. Qed.




(** X16: the defaults of [ProductCreate] reach the store: after a
    creation answered with 201, the last stored product carries the
    returned identifier, and rating 4.5, in_stock true, empty colors and
    empty tags for each of these keys the body omits. *)
Theorem create_product_defaults
    (body : gmap string Json) (w w' : World) (id : string) :
  app (POST_api_products body) w =
    Some ({| status := 201; content := JDict [("id", JStr id)] |}, w') ->
  exists doc,
    last (products w') = Some doc /\
    Py.str <$> doc !! "_id" = Some id /\
    (body !! "rating" = None -> doc !! "rating" = Some (VFloat (Float10 45 (-1)))) /\
    (body !! "in_stock" = None -> doc !! "in_stock" = Some (VBool true)) /\
    (body !! "colors" = None -> doc !! "colors" = Some (VList [])) /\
    (body !! "tags" = None -> doc !! "tags" = Some (VList [])).
Proof.
  unfold app. destruct (Body.decode body) as [[fields|payload]|] eqn:Hbody; [done| |done].
  unfold respond, create_product, try_except, bind.
  rewrite Product_init_pure.
  destruct (fst (Product_init payload offline)) as [e|prod] eqn:Hprod; [by destruct e|].
  unfold create_document, bind, round_trip.
  destruct (db w) as [d|] eqn:Hd; [|done].
  destruct (next_fault w); [done|].
  intros [= <- <-]. exists (stored_doc d prod).
  destruct (Product_init_fields _ _ _ Hprod) as (_ & _ & _ & Hcolors & Hrating & Htags & Hstock).
  destruct (decode_fields _ _ Hbody) as (_ & _ & _ & _ & _ & _ & Dc & Dr & Dt & Ds).
  destruct (model_dump_keys prod) as (_ & _ & _ & _ & Kc & Kr & Kt & Ks).
  unfold products. cbn [db set_db from_option]. rewrite collection_insert_one, last_snoc.
  unfold stored_doc. rewrite lookup_insert_eq, !lookup_insert_ne by done.
  rewrite Kc, Kr, Kt, Ks. repeat split.
  - intros E. apply (optional_absent _ _ _ _ E) in Dr. congruence.
  - intros E. apply (defaulted_absent _ _ _ _ E) in Ds. congruence.
  - intros E. apply (optional_absent _ _ _ _ E) in Dc. congruence.
  - intros E. apply (optional_absent _ _ _ _ E) in Dt. congruence.
Qed.

Lemma create_product_defaults_witness :
  exists doc,
    last (products (set_db (insert_one "product"
                              (stored_doc (database_of []) laser_mouse_product)
                              (database_of [])) (tick (world_of [])))) = Some doc /\
    Py.str <$> doc !! "_id" = Some "000000000000000000000000" /\
    (laser_mouse !! "rating" = None -> doc !! "rating" = Some (VFloat (Float10 45 (-1)))) /\
    (laser_mouse !! "in_stock" = None -> doc !! "in_stock" = Some (VBool true)) /\
    (laser_mouse !! "colors" = None -> doc !! "colors" = Some (VList [])) /\
    (laser_mouse !! "tags" = None -> doc !! "tags" = Some (VList [])).
Proof.
  apply (create_product_defaults laser_mouse (world_of [])). reflexivity.
Defined.

(** ** Status codes *)





(** ** More on POST /api/seed *)

Lemma next_fault_cons_None (w : World) (fs : list (option string)) :
  faults w = None :: fs -> next_fault w = None.
Proof. unfold next_fault. by intros ->. Qed.

Lemma next_fault_cons_Some (w : World) (msg : string) (fs : list (option string)) :
  faults w = Some msg :: fs -> next_fault w = Some msg.
Proof. unfold next_fault. by intros ->. Qed.

Lemma faults_tick (w : World) : faults (tick w) = tail (faults w).
Proof. reflexivity. Qed.

(** The loop on a healthy backend: as [seed_loop_ok], and the backend
    stays healthy. *)
Lemma seed_loop_healthy (ds : list ProductCreate.t) :
  forall (inserted : Z) (w : World) (d : Database),
    db w = Some d -> healthy w -> Forall valid ds ->
    exists w' d',
      seed_loop ds inserted w = (inr (inserted + Z.of_nat (List.length ds))%Z, w') /\
      db w' = Some d' /\ healthy w' /\
      title_of <$> collection "product" d' =
        (title_of <$> collection "product" d) ++
        ((fun kw => Some (VStr (ProductCreate.title kw))) <$> ds).
Proof.
  induction ds as [|kw ds IH]; intros inserted w d Hd Hw Hvalid.
  - exists w, d. simpl. rewrite Z.add_0_r, app_nil_r. done.
  - apply Forall_cons in Hvalid as [Hkw Hds].
    destruct (Product_init_valid kw w Hkw) as (prod & Hinit & Htitle).
    set (doc := <["_id" := VObjectId (db_next_oid d)]> (Product.model_dump prod)).
    destruct (IH (inserted + 1)%Z (set_db (insert_one "product" doc d) (tick w))
                (insert_one "product" doc d) eq_refl (healthy_tick w Hw) Hds)
      as (w' & d' & Hrun & Hd' & Hw' & Htitles).
    exists w', d'. split; [|split; [done|split; [done|]]].
    + cbn [seed_loop]. unfold bind at 1. rewrite Hinit. unfold bind at 1.
      rewrite (create_document_ok _ _ _ _ Hd (healthy_next_fault w Hw)).
      fold doc. rewrite Hrun. do 2 f_equal. simpl List.length. lia.
    + rewrite Htitles, collection_insert_one, fmap_app, <- app_assoc. simpl.
      do 2 f_equal. unfold title_of, doc. by rewrite lookup_insert_ne.
Qed.

(** The loop when the insertion number [k] (from 0) fails: the first [k]
    products stay stored. *)
Lemma seed_loop_fault (ds : list ProductCreate.t) :
  forall (k : nat) (msg : string) (rest : list (option string))
         (inserted : Z) (w : World) (d : Database),
    Forall valid ds -> k < List.length ds -> db w = Some d ->
    faults w = replicate k None ++ Some msg :: rest ->
    exists w' d',
      seed_loop ds inserted w = (inl (Exc msg), w') /\
      db w' = Some d' /\ faults w' = rest /\
      title_of <$> collection "product" d' =
        (title_of <$> collection "product" d) ++
        take k ((fun kw => Some (VStr (ProductCreate.title kw))) <$> ds).
Proof.
  induction ds as [|kw ds IH]; intros k msg rest inserted w d Hvalid Hk Hd Hfs;
    [simpl in Hk; lia|].
  apply Forall_cons in Hvalid as [Hkw Hds].
  destruct (Product_init_valid kw w Hkw) as (prod & Hinit & Htitle).
  cbn [seed_loop]. unfold bind at 1. rewrite Hinit. unfold bind at 1.
  destruct k as [|k]; simpl in Hfs.
  - rewrite (create_document_fault _ _ _ _ _ Hd (next_fault_cons_Some _ _ _ Hfs)).
    exists (tick w), d. rewrite faults_tick, Hfs. simpl. by rewrite app_nil_r.
  - rewrite (create_document_ok _ _ _ _ Hd (next_fault_cons_None _ _ Hfs)).
    set (doc := <["_id" := VObjectId (db_next_oid d)]> (Product.model_dump prod)).
    destruct (IH k msg rest (inserted + 1)%Z (set_db (insert_one "product" doc d) (tick w))
                (insert_one "product" doc d) Hds) as (w' & d' & Hrun & Hd' & Hf' & Htitles).
    { simpl in Hk. lia. }
    { done. }
    { cbn [faults set_db]. by rewrite faults_tick, Hfs. }
    exists w', d'. split; [done|]. split; [done|]. split; [done|].
    rewrite Htitles, collection_insert_one, fmap_app, <- app_assoc. simpl.
    do 2 f_equal. unfold title_of, doc. by rewrite lookup_insert_ne.
Qed.

Lemma seed_products_skips (w : World) (d : Database) :
  db w = Some d -> next_fault w = None -> collection "product" d <> [] ->
  app POST_api_seed w = Some (skipped, tick w).
Proof.
  intros Hd Hf Hne. rewrite (seed_products_run w d Hd Hf).
  by destruct (collection "product" d).
Qed.

Lemma titles_nonempty (docs : list Doc) (t : option Value) (ts : list (option Value)) :
  title_of <$> docs = t :: ts -> docs <> [].
Proof. by destruct docs. Qed.

(** The first seeding of a healthy backend, whatever it holds. *)
Lemma seed_products_first (w : World) (d : Database) :
  db w = Some d -> healthy w ->
  exists r w1 d1,
    app POST_api_seed w = Some (r, w1) /\ status r = 200 /\
    db w1 = Some d1 /\ healthy w1 /\ collection "product" d1 <> [] /\
    (collection "product" d = [] ->
     content r = JDict [("status", JStr "ok"); ("inserted", JInt 5)] /\
     title_of <$> collection "product" d1 = demo_titles).
Proof.
  intros Hd Hw. rewrite (seed_products_run w d Hd (healthy_next_fault w Hw)).
  destruct (collection "product" d) as [|doc docs] eqn:Hdocs.
  - destruct (seed_loop_healthy demo_products 0 (tick w) d Hd (healthy_tick w Hw)
                demo_products_valid) as (w1 & d1 & Hloop & Hd1 & Hw1 & Htitles).
    rewrite Hdocs in Htitles. simpl in Htitles.
    eexists _, w1, d1. unfold respond, try_except, bind. rewrite Hloop.
    split; [reflexivity|]. split; [done|]. split; [done|]. split; [done|].
    split; [by apply (titles_nonempty _ _ _ Htitles)|]. done.
  - eexists _, (tick w), d. split; [reflexivity|]. split; [done|]. split; [done|].
    split; [by apply healthy_tick|]. split; [by rewrite Hdocs|]. done.
Qed.

(** X18: seeding is idempotent: on a healthy backend a second seeding is
    always answered "skipped" and leaves the database as the first one
    left it. *)
Theorem seed_products_twice (w : World) (d : Database) :
  db w = Some d -> healthy w ->
  exists r w1 w2,
    app POST_api_seed w = Some (r, w1) /\ status r = 200 /\
    app POST_api_seed w1 = Some (skipped, w2) /\
    db w2 = db w1 /\ products w1 <> [].
Proof.
  intros Hd Hw.
  destruct (seed_products_first w d Hd Hw) as (r & w1 & d1 & Hrun & Hs & Hd1 & Hw1 & Hne & _).
  exists r, w1, (tick w1). split; [done|]. split; [done|].
  split; [by apply (seed_products_skips w1 d1 Hd1 (healthy_next_fault w1 Hw1))|].
  split; [done|]. unfold products. by rewrite Hd1.
Qed.

Lemma seed_products_twice_witness :
  exists r w1 w2,
    app POST_api_seed (world_of []) = Some (r, w1) /\ status r = 200 /\
    app POST_api_seed w1 = Some (skipped, w2) /\
    db w2 = db w1 /\ products w1 <> [].
Proof.
  apply (seed_products_twice (world_of []) (database_of [])); [reflexivity|constructor].
Defined.

(** X19: seeding is not atomic: when the insertion number [k] fails, the
    answer is 500 with the error text and the [k] products inserted so
    far stay stored; if there is at least one, a later seeding is
    skipped, so the remaining demonstration products are never added. *)
Theorem seed_products_partial
    (w : World) (d : Database) (k : nat) (msg : string) (rest : list (option string)) :
  db w = Some d -> collection "product" d = [] -> k < 5 ->
  faults w = None :: replicate k None ++ Some msg :: rest ->
  exists w',
    app POST_api_seed w =
      Some ({| status := 500; content := JDict [("detail", JStr msg)] |}, w') /\
    title_of <$> products w' = take k demo_titles /\
    faults w' = rest /\
    (0 < k -> next_fault w' = None -> app POST_api_seed w' = Some (skipped, tick w')).
Proof.
  intros Hd Hempty Hk Hfs.
  rewrite (seed_products_run w d Hd (next_fault_cons_None _ _ Hfs)), Hempty.
  destruct (seed_loop_fault demo_products k msg rest 0 (tick w) d demo_products_valid)
    as (w' & d' & Hloop & Hd' & Hf' & Htitles); [done|done|by rewrite faults_tick, Hfs|].
  rewrite Hempty in Htitles. simpl in Htitles.
  exists w'. unfold respond, try_except, bind. rewrite Hloop.
  split; [done|]. split; [unfold products; by rewrite Hd'|]. split; [done|].
  intros Hpos Hnext. apply (seed_products_skips w' d' Hd' Hnext).
  destruct k as [|k]; [lia|]. by apply (titles_nonempty _ _ _ Htitles).
Qed.

Lemma seed_products_partial_witness :
  exists w',
    app POST_api_seed (world_with [] [None; None; None; Some "connection lost"]) =
      Some ({| status := 500; content := JDict [("detail", JStr "connection lost")] |}, w') /\
    title_of <$> products w' = take 2 demo_titles /\
    faults w' = [] /\
    (0 < 2 -> next_fault w' = None -> app POST_api_seed w' = Some (skipped, tick w')).
Proof.
  apply (seed_products_partial (world_with [] [None; None; None; Some "connection lost"])
           (database_of []) 2 "connection lost" []); [reflexivity|reflexivity|lia|reflexivity].
Defined.

Lemma title_of_stringify_id (d : Doc) : title_of (stringify_id d) = title_of d.
Proof. unfold title_of. by apply stringify_id_other. Qed.

(** X20: after seeding an empty, healthy backend, the unfiltered listing
    returns the five demonstration products in the order of the source. *)
Theorem seed_then_list (w : World) (d : Database) :
  db w = Some d -> healthy w -> collection "product" d = [] ->
  exists w1 items w2,
    app POST_api_seed w =
      Some ({| status := 200;
               content := JDict [("status", JStr "ok"); ("inserted", JInt 5)] |}, w1) /\
    app (GET_api_products None None) w1 =
      Some ({| status := 200; content := items_body items |}, w2) /\
    title_of <$> items =
      [Some (VStr "Neon Glow Collar"); Some (VStr "Catnip Disco Ball");
       Some (VStr "Tropical Reef Palace"); Some (VStr "Feather Carnival Wand");
       Some (VStr "Birdie Neon Gym")].
Proof.
  intros Hd Hw Hempty.
  destruct (seed_products_first w d Hd Hw)
    as ([st body] & w1 & d1 & Hrun & Hs & Hd1 & Hw1 & _ & Hok).
  destruct (Hok Hempty) as [Hbody Htitles]. simpl in Hs, Hbody. subst st body.
  exists w1. eexists _, _. split; [done|]. split.
  - rewrite list_products_run, Hd1, (healthy_next_fault w1 Hw1). reflexivity.
  - rewrite filter_all by by apply Forall_forall.
    assert (Hlen : List.length (collection "product" d1) = 5).
    { by rewrite <- (length_fmap title_of), Htitles. }
    rewrite take_ge by lia. rewrite <- list_fmap_compose.
    transitivity (title_of <$> collection "product" d1); [|exact Htitles].
    apply list_fmap_ext. intros _ doc _. apply title_of_stringify_id.
Qed.

Lemma seed_then_list_witness :
  exists w1 items w2,
    app POST_api_seed (world_of []) =
      Some ({| status := 200;
               content := JDict [("status", JStr "ok"); ("inserted", JInt 5)] |}, w1) /\
    app (GET_api_products None None) w1 =
      Some ({| status := 200; content := items_body items |}, w2) /\
    title_of <$> items =
      [Some (VStr "Neon Glow Collar"); Some (VStr "Catnip Disco Ball");
       Some (VStr "Tropical Reef Palace"); Some (VStr "Feather Carnival Wand");
       Some (VStr "Birdie Neon Gym")].
Proof.
  apply (seed_then_list (world_of []) (database_of [])); [reflexivity|constructor|reflexivity].
Defined.
